(** * PayEasy admin RBAC: authorization and audit engine

    A shallow embedding of the role-based access-control code of the
    PayEasy web application:

    - [lib/types/roles.ts]: roles, permission keys, the role/permission
      matrix and the record types;
    - [lib/auth/roles.ts]: permission checks, the context builder, the
      role hierarchy and the error bodies;
    - [middleware/authorization.ts]: [authorizeRequest] and its wrappers;
    - [api/admin/roles/[id]/route.ts]: the [PATCH] and [DELETE] handlers;
    - [supabase/migrations/20260225_create_admin_rbac.sql]: the
      [audit_role_change] trigger function.

    TypeScript arrays are lists, [includes]/[every]/[some] are
    [existsb]/[forallb]/[existsb], optional and nullable fields are
    [option]s, string-literal unions are inductive types.  The Supabase
    client is an explicit value (the identity provider and the clock of
    the database), the [admin_users] table is the state the handlers
    thread, and both may fail. *)

From Stdlib Require Import List String Bool ZArith Lia.
Import ListNotations.
Open Scope string_scope.

Set Implicit Arguments.

(* ------------------------------------------------------------------ *)
(** ** lib/types/roles.ts                                              *)
(* ------------------------------------------------------------------ *)

(** [type AdminRole] *)
Inductive AdminRole : Type :=
| super_admin
| moderator
| support
| analyst
| custom.

(** [type PermissionKey], one constructor per string literal,
    [users.view] written [users_view]. *)
Inductive PermissionKey : Type :=
| users_view
| users_edit
| users_suspend
| users_delete
| users_assign_role
| listings_view
| listings_edit
| listings_delete
| listings_publish
| listings_unpublish
| disputes_view
| disputes_resolve
| disputes_appeal
| support_manage_tickets
| support_respond
| reports_view
| reports_generate
| reports_export
| payments_view
| payments_refund
| payments_manage_fees
| settings_admin
| settings_system
| audit_view
| audit_export
| roles_view
| roles_create
| roles_edit
| roles_delete.

(** The status union ['active' | 'inactive' | 'suspended']. *)
Inductive AdminStatus : Type :=
| active
| inactive
| suspended.

Scheme Equality for AdminRole.
Scheme Equality for PermissionKey.
Scheme Equality for AdminStatus.

(** The string literal behind each permission key. *)
Definition permission_key_string (p : PermissionKey) : string :=
  match p with
  | users_view => "users.view"
  | users_edit => "users.edit"
  | users_suspend => "users.suspend"
  | users_delete => "users.delete"
  | users_assign_role => "users.assign_role"
  | listings_view => "listings.view"
  | listings_edit => "listings.edit"
  | listings_delete => "listings.delete"
  | listings_publish => "listings.publish"
  | listings_unpublish => "listings.unpublish"
  | disputes_view => "disputes.view"
  | disputes_resolve => "disputes.resolve"
  | disputes_appeal => "disputes.appeal"
  | support_manage_tickets => "support.manage_tickets"
  | support_respond => "support.respond"
  | reports_view => "reports.view"
  | reports_generate => "reports.generate"
  | reports_export => "reports.export"
  | payments_view => "payments.view"
  | payments_refund => "payments.refund"
  | payments_manage_fees => "payments.manage_fees"
  | settings_admin => "settings.admin"
  | settings_system => "settings.system"
  | audit_view => "audit.view"
  | audit_export => "audit.export"
  | roles_view => "roles.view"
  | roles_create => "roles.create"
  | roles_edit => "roles.edit"
  | roles_delete => "roles.delete"
  end.

(** The string literal behind each role and each status. *)
Definition role_string (r : AdminRole) : string :=
  match r with
  | super_admin => "super_admin"
  | moderator => "moderator"
  | support => "support"
  | analyst => "analyst"
  | custom => "custom"
  end.

Definition status_string (s : AdminStatus) : string :=
  match s with
  | active => "active"
  | inactive => "inactive"
  | suspended => "suspended"
  end.

(** The permission catalog: every member of the [PermissionKey] union, in
    the order of its declaration. *)
Definition PERMISSION_CATALOG : list PermissionKey :=
  [ users_view; users_edit; users_suspend; users_delete; users_assign_role;
    listings_view; listings_edit; listings_delete; listings_publish;
    listings_unpublish;
    disputes_view; disputes_resolve; disputes_appeal;
    support_manage_tickets; support_respond;
    reports_view; reports_generate; reports_export;
    payments_view; payments_refund; payments_manage_fees;
    settings_admin; settings_system; audit_view; audit_export;
    roles_view; roles_create; roles_edit; roles_delete ].

(** [const ROLE_PERMISSIONS: Record<AdminRole, PermissionKey[]>] *)
Definition ROLE_PERMISSIONS (r : AdminRole) : list PermissionKey :=
  match r with
  | super_admin =>
      [ users_view; users_edit; users_suspend; users_delete;
        users_assign_role;
        listings_view; listings_edit; listings_delete; listings_publish;
        listings_unpublish;
        disputes_view; disputes_resolve; disputes_appeal;
        support_manage_tickets; support_respond;
        reports_view; reports_generate; reports_export;
        payments_view; payments_refund; payments_manage_fees;
        settings_admin; settings_system; audit_view; audit_export;
        roles_view; roles_create; roles_edit; roles_delete ]
  | moderator =>
      [ users_view; users_edit; users_suspend;
        listings_view; listings_edit; listings_delete; listings_publish;
        listings_unpublish;
        disputes_view; disputes_resolve;
        support_manage_tickets; support_respond;
        reports_view; audit_view; roles_view ]
  | support =>
      [ users_view; disputes_view; disputes_resolve;
        support_manage_tickets; support_respond;
        reports_view; audit_view ]
  | analyst =>
      [ users_view; listings_view; disputes_view;
        reports_view; reports_generate; reports_export;
        audit_view; roles_view ]
  | custom => []
  end.

(** [interface AdminUser] (and [AdminUserRow]: the row has the same
    fields, with [custom_permissions] nullable as well as optional). *)
Module AdminUser.
Record t : Type := mk {
    id : string;
    user_id : string;
    role : AdminRole;
    custom_permissions : option (list PermissionKey);
    assigned_at : string;
    assigned_by : string;
    status : AdminStatus;
    created_at : string;
    updated_at : string
  }.
End AdminUser.

(** [interface AuthorizationContext] *)
Module AuthorizationContext.
Record t : Type := mk {
    user_id : string;
    admin_id : option string;
    role : option AdminRole;
    permissions : list PermissionKey;
    is_admin : bool;
    is_super_admin : bool
  }.
End AuthorizationContext.

(* ------------------------------------------------------------------ *)
(** ** lib/auth/roles.ts                                               *)
(* ------------------------------------------------------------------ *)

(** [context.permissions.includes(permission)] *)
Definition hasPermission (context : AuthorizationContext.t)
    (permission : PermissionKey) : bool :=
  existsb (PermissionKey_beq permission)
          (AuthorizationContext.permissions context).

(** [permissions.every((p) => hasPermission(context, p))] *)
Definition hasAllPermissions (context : AuthorizationContext.t)
    (permissions : list PermissionKey) : bool :=
  forallb (fun p => hasPermission context p) permissions.

(** [permissions.some((p) => hasPermission(context, p))] *)
Definition hasAnyPermission (context : AuthorizationContext.t)
    (permissions : list PermissionKey) : bool :=
  existsb (fun p => hasPermission context p) permissions.

(** [getRolePermissions]: [ROLE_PERMISSIONS[role] || []] is defined for
    each of the five roles; an array, empty or not, is truthy, so the
    custom branch is taken exactly when the list is present. *)
Definition getRolePermissions (role : AdminRole)
    (customPermissions : option (list PermissionKey)) : list PermissionKey :=
  let basePermissions := ROLE_PERMISSIONS role in
  match customPermissions with
  | Some cp => if AdminRole_beq role custom then cp else basePermissions
  | None => basePermissions
  end.

Definition createAuthorizationContext (admin : AdminUser.t)
    : AuthorizationContext.t :=
  let permissions :=
    getRolePermissions (AdminUser.role admin)
                       (AdminUser.custom_permissions admin) in
  {| AuthorizationContext.user_id := AdminUser.user_id admin;
     AuthorizationContext.admin_id := Some (AdminUser.id admin);
     AuthorizationContext.role := Some (AdminUser.role admin);
     AuthorizationContext.permissions := permissions;
     AuthorizationContext.is_admin :=
       AdminStatus_beq (AdminUser.status admin) active;
     AuthorizationContext.is_super_admin :=
       AdminRole_beq (AdminUser.role admin) super_admin
       && AdminStatus_beq (AdminUser.status admin) active |}.

(** [const ROLE_HIERARCHY: Record<AdminRole, number>], in source order. *)
Definition ROLE_HIERARCHY : list (AdminRole * Z) :=
  [ (super_admin, 100%Z);
    (moderator, 60%Z);
    (support, 40%Z);
    (analyst, 20%Z);
    (custom, 30%Z) ].

(** Property access [ROLE_HIERARCHY[role]]: [None] stands for
    [undefined]. *)
Fixpoint hierarchy_lookup (table : list (AdminRole * Z)) (r : AdminRole)
    : option Z :=
  match table with
  | [] => None
  | (k, v) :: rest =>
      if AdminRole_beq k r then Some v else hierarchy_lookup rest r
  end.

(** The nullish coalescing operator [x ?? d]. *)
Definition nullish (A : Type) (x : option A) (d : A) : A :=
  match x with
  | Some v => v
  | None => d
  end.

Definition canManageRole (manager_role target_role : AdminRole) : bool :=
  if AdminRole_beq manager_role super_admin then true
  else
    let manager_level :=
      nullish (hierarchy_lookup ROLE_HIERARCHY manager_role) 0%Z in
    let target_level :=
      nullish (hierarchy_lookup ROLE_HIERARCHY target_role) 0%Z in
    (target_level <? manager_level)%Z.

Definition validateRoleAssignment (assigner_context : AuthorizationContext.t)
    (target_role : AdminRole) : bool :=
  if negb (hasPermission assigner_context users_assign_role) then false
  else
    match AuthorizationContext.role assigner_context with
    | None => false
    | Some r => canManageRole r target_role
    end.

(** The JSON bodies the handlers send.  A field that a given body does
    not carry is [None]. *)
Module ApiBody.
Record t : Type := mk {
    success : bool;
    error : option string;
    message : option string;
    status : option Z;
    data : option AdminUser.t
  }.
End ApiBody.

(** [permissionDeniedError(permission?)]: a permission key is a non-empty
    string, so [permission ? a : b] tests presence. *)
Definition permissionDeniedError (permission : option PermissionKey)
    : ApiBody.t :=
  {| ApiBody.success := false;
     ApiBody.error := Some "PERMISSION_DENIED";
     ApiBody.message :=
       Some match permission with
            | Some p =>
                "User lacks required permission: " ++ permission_key_string p
            | None => "User does not have admin access"
            end;
     ApiBody.status := Some 403%Z;
     ApiBody.data := None |}.

Definition adminAccessRequiredError : ApiBody.t :=
  {| ApiBody.success := false;
     ApiBody.error := Some "ADMIN_ACCESS_REQUIRED";
     ApiBody.message := Some "This action requires admin access";
     ApiBody.status := Some 403%Z;
     ApiBody.data := None |}.

(* ------------------------------------------------------------------ *)
(** ** The collaborators: Next.js requests and the Supabase client     *)
(* ------------------------------------------------------------------ *)

(** A call either returns or throws. *)
Inductive Outcome (A : Type) : Type :=
| Returns (a : A)
| Throws.
Arguments Throws {A}.

(** The value of a JSON field that may be missing, [null], or present. *)
Inductive JsonField (A : Type) : Type :=
| Undefined
| Null
| Value (a : A).
Arguments Undefined {A}.
Arguments Null {A}.

(** The body of a [PATCH] request after [request.json()]. *)
Module PatchBody.
Record t : Type := mk {
    role : option string;
    custom_permissions : JsonField (list PermissionKey);
    status : option string;
    reason : option string
  }.
End PatchBody.

(** [NextRequest]: the [Authorization] header, and what [request.json()]
    gives (it throws on a body that is not JSON). *)
Module NextRequest.
Record t : Type := mk {
    authorization : option string;
    json : Outcome PatchBody.t
  }.
End NextRequest.

(** [NextResponse.json(body, { status })]; the status is 200 when the
    source gives none. *)
Module NextResponse.
Record t : Type := mk {
    body : ApiBody.t;
    status : Z
  }.
End NextResponse.

(** What [supabase.auth.getUser(token)] resolves to:
    [{ data: { user }, error }]; of the user only [id] is read. *)
Module UserResponse.
Record t : Type := mk {
    user : option string;
    error : option string
  }.
End UserResponse.

(** The client made by [createClient]: the identity provider, and the
    clock of the database ([NOW()]). *)
Module Supabase.
Record t : Type := mk {
    auth_getUser : string -> Outcome UserResponse.t;
    now : string
  }.
End Supabase.

(** The [admin_users] table as the handlers see it: its rows, or a store
    whose every query comes back with an [error], or one whose every query
    throws. *)
Inductive Table : Type :=
| Rows (rows : list AdminUser.t)
| QueryError (msg : string)
| QueryThrows.

(** What a query ending in [.single()] resolves to. *)
Module Single.
Record t : Type := mk {
    data : option AdminUser.t;
    error : option string
  }.
End Single.

(** [.single()]: the row when exactly one row is selected, an error
    otherwise. *)
Definition single (selected : list AdminUser.t) : Single.t :=
  match selected with
  | [r] => {| Single.data := Some r; Single.error := None |}
  | _ => {| Single.data := None; Single.error := Some "PGRST116" |}
  end.

(** Handlers read and write the table and may throw: a state and
    exception monad over [Table]. *)
Definition Handler (A : Type) : Type := Table -> Outcome A * Table.

Definition ret (A : Type) (a : A) : Handler A :=
  fun t => (Returns a, t).

Definition bind (A B : Type) (m : Handler A) (k : A -> Handler B)
    : Handler B :=
  fun t =>
    match m t with
    | (Returns a, t') => k a t'
    | (Throws, t') => (Throws, t')
    end.

Definition lift (A : Type) (o : Outcome A) : Handler A :=
  fun t => (o, t).

(** [try { m } catch (error) { return h }] *)
Definition try_catch (A : Type) (m : Handler A) (h : A) : Table -> A * Table :=
  fun t =>
    match m t with
    | (Returns a, t') => (a, t')
    | (Throws, t') => (h, t')
    end.

Notation "x <- m ;; k" := (bind m (fun x => k))
  (at level 61, m at next level, right associativity).

(** [supabase.from('admin_users').select('*').eq(..)...single()] *)
Definition select_single (filter : AdminUser.t -> bool) : Handler Single.t :=
  fun t =>
    match t with
    | Rows rows => (Returns (single (List.filter filter rows)), t)
    | QueryError msg =>
        (Returns {| Single.data := None; Single.error := Some msg |}, t)
    | QueryThrows => (Throws, t)
    end.

(** [.eq('user_id', uid).eq('status', 'active')] *)
Definition active_admin_of (uid : string) (row : AdminUser.t) : bool :=
  String.eqb (AdminUser.user_id row) uid
  && AdminStatus_beq (AdminUser.status row) active.

(** [.eq('id', id)] *)
Definition has_id (id : string) (row : AdminUser.t) : bool :=
  String.eqb (AdminUser.id row) id.

(** [authHeader?.startsWith('Bearer ')] and [authHeader.substring(7)] *)
Definition bearer_token (authHeader : option string) : option string :=
  match authHeader with
  | Some h =>
      if String.prefix "Bearer " h
      then Some (String.substring 7 (String.length h - 7) h)
      else None
  | None => None
  end.

(* ------------------------------------------------------------------ *)
(** ** middleware/authorization.ts                                     *)
(* ------------------------------------------------------------------ *)

(** [interface AuthorizationResult] *)
Module AuthorizationResult.
Record t : Type := mk {
    authorized : bool;
    context : option AuthorizationContext.t;
    response : option NextResponse.t;
    userId : option string;
    adminId : option string
  }.
End AuthorizationResult.

(** The parameter [requiredPermission?: PermissionKey | PermissionKey[]]. *)
Inductive RequiredPermission : Type :=
| OnePermission (p : PermissionKey)
| PermissionArray (ps : list PermissionKey).

(** [Array.isArray(requiredPermission) ? requiredPermission
    : [requiredPermission]] *)
Definition as_array (rp : RequiredPermission) : list PermissionKey :=
  match rp with
  | OnePermission p => [p]
  | PermissionArray ps => ps
  end.

Definition access_denied_response : NextResponse.t :=
  {| NextResponse.body := adminAccessRequiredError;
     NextResponse.status := 403%Z |}.

Definition internal_error_body : ApiBody.t :=
  {| ApiBody.success := false;
     ApiBody.error := Some "Internal server error";
     ApiBody.message := None;
     ApiBody.status := None;
     ApiBody.data := None |}.

Definition internal_error_response : NextResponse.t :=
  {| NextResponse.body := internal_error_body;
     NextResponse.status := 500%Z |}.

(** The body of the [try] block of [authorizeRequest].  A present
    [requiredPermission] is truthy whether it is a key or an array, the
    empty array included. *)
Definition authorizeRequest_try (supabase : Supabase.t)
    (request : NextRequest.t)
    (requiredPermission : option RequiredPermission) (requireAll : bool)
    : Handler AuthorizationResult.t :=
  match bearer_token (NextRequest.authorization request) with
  | None =>
      ret {| AuthorizationResult.authorized := false;
             AuthorizationResult.context := None;
             AuthorizationResult.response := Some access_denied_response;
             AuthorizationResult.userId := None;
             AuthorizationResult.adminId := None |}
  | Some token =>
      userData <- lift (Supabase.auth_getUser supabase token) ;;
      match UserResponse.error userData, UserResponse.user userData with
      | None, Some uid =>
          adminRes <- select_single (active_admin_of uid) ;;
          match Single.error adminRes, Single.data adminRes with
          | None, Some adminData =>
              let context := createAuthorizationContext adminData in
              let granted :=
                {| AuthorizationResult.authorized := true;
                   AuthorizationResult.context := Some context;
                   AuthorizationResult.response := None;
                   AuthorizationResult.userId := Some uid;
                   AuthorizationResult.adminId :=
                     Some (AdminUser.id adminData) |} in
              match requiredPermission with
              | Some rp =>
                  let permissions := as_array rp in
                  let hasRequired :=
                    if requireAll
                    then forallb (fun p => hasPermission context p) permissions
                    else existsb (fun p => hasPermission context p) permissions
                  in
                  if negb hasRequired
                  then
                    ret {| AuthorizationResult.authorized := false;
                           AuthorizationResult.context := Some context;
                           AuthorizationResult.response :=
                             Some {| NextResponse.body :=
                                       permissionDeniedError
                                         (hd_error permissions);
                                     NextResponse.status := 403%Z |};
                           AuthorizationResult.userId := Some uid;
                           AuthorizationResult.adminId :=
                             Some (AdminUser.id adminData) |}
                  else ret granted
              | None => ret granted
              end
          | _, _ =>
              ret {| AuthorizationResult.authorized := false;
                     AuthorizationResult.context := None;
                     AuthorizationResult.response :=
                       Some access_denied_response;
                     AuthorizationResult.userId := Some uid;
                     AuthorizationResult.adminId := None |}
          end
      | _, _ =>
          ret {| AuthorizationResult.authorized := false;
                 AuthorizationResult.context := None;
                 AuthorizationResult.response := Some access_denied_response;
                 AuthorizationResult.userId := None;
                 AuthorizationResult.adminId := None |}
      end
  end.

(** [authorizeRequest]: the [try] block, and the [catch] that answers
    500.  It only reads the table. *)
Definition authorizeRequest (supabase : Supabase.t) (table : Table)
    (request : NextRequest.t)
    (requiredPermission : option RequiredPermission) (requireAll : bool)
    : AuthorizationResult.t :=
  fst (try_catch
         (authorizeRequest_try supabase request requiredPermission requireAll)
         {| AuthorizationResult.authorized := false;
            AuthorizationResult.context := None;
            AuthorizationResult.response := Some internal_error_response;
            AuthorizationResult.userId := None;
            AuthorizationResult.adminId := None |}
         table).

(** The wrappers; [authorizeRequest(request)] leaves [requireAll] at its
    default [true]. *)
Definition requireAdminAccess (supabase : Supabase.t) (table : Table)
    (request : NextRequest.t) : AuthorizationResult.t :=
  authorizeRequest supabase table request None true.

Definition requireSuperAdminAccess (supabase : Supabase.t) (table : Table)
    (request : NextRequest.t) : AuthorizationResult.t :=
  let auth := authorizeRequest supabase table request None true in
  let is_super :=
    match AuthorizationResult.context auth with
    | Some c => AuthorizationContext.is_super_admin c
    | None => false
    end in
  if AuthorizationResult.authorized auth && negb is_super
  then {| AuthorizationResult.authorized := false;
          AuthorizationResult.context := AuthorizationResult.context auth;
          AuthorizationResult.response :=
            Some {| NextResponse.body := permissionDeniedError None;
                    NextResponse.status := 403%Z |};
          AuthorizationResult.userId := AuthorizationResult.userId auth;
          AuthorizationResult.adminId := AuthorizationResult.adminId auth |}
  else auth.

Definition requireAllPermissions (supabase : Supabase.t) (table : Table)
    (request : NextRequest.t) (permissions : list PermissionKey)
    : AuthorizationResult.t :=
  authorizeRequest supabase table request
                   (Some (PermissionArray permissions)) true.

Definition requireAnyPermission (supabase : Supabase.t) (table : Table)
    (request : NextRequest.t) (permissions : list PermissionKey)
    : AuthorizationResult.t :=
  authorizeRequest supabase table request
                   (Some (PermissionArray permissions)) false.

(* ------------------------------------------------------------------ *)
(** ** api/admin/roles/[id]/route.ts                                   *)
(* ------------------------------------------------------------------ *)

(** [{ success: false, error }] sent with an HTTP status. *)
Definition failure (error : string) (http : Z) : NextResponse.t :=
  {| NextResponse.body :=
       {| ApiBody.success := false;
          ApiBody.error := Some error;
          ApiBody.message := None;
          ApiBody.status := None;
          ApiBody.data := None |};
     NextResponse.status := http |}.

(** [['super_admin', 'moderator', 'support', 'analyst', 'custom']
    .includes(role)], with the role it names. *)
Definition parse_role (s : string) : option AdminRole :=
  if String.eqb s "super_admin" then Some super_admin
  else if String.eqb s "moderator" then Some moderator
  else if String.eqb s "support" then Some support
  else if String.eqb s "analyst" then Some analyst
  else if String.eqb s "custom" then Some custom
  else None.

(** [['active', 'inactive', 'suspended'].includes(status)] *)
Definition parse_status (s : string) : option AdminStatus :=
  if String.eqb s "active" then Some active
  else if String.eqb s "inactive" then Some inactive
  else if String.eqb s "suspended" then Some suspended
  else None.

(** A string is truthy when it is present and not empty. *)
Definition truthy (s : option string) : option string :=
  match s with
  | Some v => if String.eqb v "" then None else Some v
  | None => None
  end.

(** The object [toUpdate]: a column is set or left out. *)
Module ToUpdate.
Record t : Type := mk {
    role : option AdminRole;
    custom_permissions : option (option (list PermissionKey));
    status : option AdminStatus
  }.
End ToUpdate.

Definition is_empty_update (u : ToUpdate.t) : bool :=
  match ToUpdate.role u, ToUpdate.custom_permissions u, ToUpdate.status u with
  | None, None, None => true
  | _, _, _ => false
  end.

(** One row after [UPDATE admin_users SET ...]; the trigger
    [admin_users_update_timestamp] sets [updated_at]. *)
Definition apply_update (now : string) (u : ToUpdate.t) (row : AdminUser.t)
    : AdminUser.t :=
  {| AdminUser.id := AdminUser.id row;
     AdminUser.user_id := AdminUser.user_id row;
     AdminUser.role := nullish (ToUpdate.role u) (AdminUser.role row);
     AdminUser.custom_permissions :=
       nullish (ToUpdate.custom_permissions u)
               (AdminUser.custom_permissions row);
     AdminUser.assigned_at := AdminUser.assigned_at row;
     AdminUser.assigned_by := AdminUser.assigned_by row;
     AdminUser.status := nullish (ToUpdate.status u) (AdminUser.status row);
     AdminUser.created_at := AdminUser.created_at row;
     AdminUser.updated_at := now |}.

(** The table constraint [admin_users_role_check]:
    [(role != 'custom') OR (custom_permissions IS NOT NULL)]. *)
Definition admin_users_role_check (row : AdminUser.t) : bool :=
  negb (AdminRole_beq (AdminUser.role row) custom)
  || match AdminUser.custom_permissions row with
     | Some _ => true
     | None => false
     end.

(** [.update(toUpdate).eq('id', id).select().single()].  An update that
    sets no column changes and selects no row; an update that breaks the
    check constraint is refused as a whole. *)
Definition update_single (now : string) (u : ToUpdate.t) (id : string)
    : Handler Single.t :=
  fun t =>
    match t with
    | Rows rows =>
        if is_empty_update u then (Returns (single []), t)
        else
          let rows' :=
            map (fun r => if has_id id r then apply_update now u r else r)
                rows in
          if forallb admin_users_role_check (List.filter (has_id id) rows')
          then (Returns (single (List.filter (has_id id) rows')), Rows rows')
          else
            (Returns {| Single.data := None; Single.error := Some "23514" |},
             t)
    | QueryError msg =>
        (Returns {| Single.data := None; Single.error := Some msg |}, t)
    | QueryThrows => (Throws, t)
    end.

(** [.delete().eq('id', id)]; the result is its [error]. *)
Definition delete_rows (id : string) : Handler (option string) :=
  fun t =>
    match t with
    | Rows rows =>
        (Returns None, Rows (List.filter (fun r => negb (has_id id r)) rows))
    | QueryError msg => (Returns (Some msg), t)
    | QueryThrows => (Throws, t)
    end.

(** [!currentAdmin || currentAdmin.role !== 'super_admin'] *)
Definition not_super_admin (currentAdmin : option AdminUser.t) : bool :=
  match currentAdmin with
  | Some a => negb (AdminRole_beq (AdminUser.role a) super_admin)
  | None => true
  end.

(** The part of [PATCH] after the target was found: parse the body,
    build [toUpdate], write. *)
Definition PATCH_update (supabase : Supabase.t) (request : NextRequest.t)
    (params_id : string) : Handler NextResponse.t :=
  body <- lift (NextRequest.json request) ;;
  let role_step : option (option AdminRole) :=
    match truthy (PatchBody.role body) with
    | Some s =>
        match parse_role s with
        | Some r => Some (Some r)
        | None => None
        end
    | None => Some None
    end in
  match role_step with
  | None => ret (failure "Invalid role" 400%Z)
  | Some to_role =>
      let to_custom :=
        match PatchBody.custom_permissions body with
        | Undefined => None
        | Null => Some None
        | Value ps => Some (Some ps)
        end in
      let status_step : option (option AdminStatus) :=
        match truthy (PatchBody.status body) with
        | Some s =>
            match parse_status s with
            | Some st => Some (Some st)
            | None => None
            end
        | None => Some None
        end in
      match status_step with
      | None => ret (failure "Invalid status" 400%Z)
      | Some to_status =>
          let toUpdate :=
            {| ToUpdate.role := to_role;
               ToUpdate.custom_permissions := to_custom;
               ToUpdate.status := to_status |} in
          res <- update_single (Supabase.now supabase) toUpdate params_id ;;
          match Single.error res with
          | Some _ => ret (failure "Failed to update admin" 500%Z)
          | None =>
              ret {| NextResponse.body :=
                       {| ApiBody.success := true;
                          ApiBody.error := None;
                          ApiBody.message := Some "Admin role updated";
                          ApiBody.status := None;
                          ApiBody.data := Single.data res |};
                     NextResponse.status := 200%Z |}
          end
      end
  end.

Definition PATCH_try (supabase : Supabase.t) (request : NextRequest.t)
    (params_id : string) : Handler NextResponse.t :=
  match bearer_token (NextRequest.authorization request) with
  | None => ret access_denied_response
  | Some token =>
      userData <- lift (Supabase.auth_getUser supabase token) ;;
      match UserResponse.user userData with
      | None => ret access_denied_response
      | Some uid =>
          currentAdmin <- select_single (active_admin_of uid) ;;
          if not_super_admin (Single.data currentAdmin)
          then
            ret {| NextResponse.body :=
                     permissionDeniedError (Some users_assign_role);
                   NextResponse.status := 403%Z |}
          else
            targetAdmin <- select_single (has_id params_id) ;;
            match Single.data targetAdmin with
            | None => ret (failure "Admin user not found" 404%Z)
            | Some _ => PATCH_update supabase request params_id
            end
      end
  end.

(** [export async function PATCH]: the response and the table after. *)
Definition PATCH (supabase : Supabase.t) (request : NextRequest.t)
    (params_id : string) (table : Table) : NextResponse.t * Table :=
  try_catch (PATCH_try supabase request params_id)
            internal_error_response table.

Definition DELETE_try (supabase : Supabase.t) (request : NextRequest.t)
    (params_id : string) : Handler NextResponse.t :=
  match bearer_token (NextRequest.authorization request) with
  | None => ret access_denied_response
  | Some token =>
      userData <- lift (Supabase.auth_getUser supabase token) ;;
      match UserResponse.user userData with
      | None => ret access_denied_response
      | Some uid =>
          currentAdmin <- select_single (active_admin_of uid) ;;
          if not_super_admin (Single.data currentAdmin)
          then
            ret {| NextResponse.body :=
                     permissionDeniedError (Some users_assign_role);
                   NextResponse.status := 403%Z |}
          else
            targetAdmin <- select_single (has_id params_id) ;;
            match Single.data targetAdmin with
            | None => ret (failure "Admin user not found" 404%Z)
            | Some target =>
                if String.eqb (AdminUser.user_id target) uid
                then ret (failure "Cannot remove your own admin access" 400%Z)
                else
                  error <- delete_rows params_id ;;
                  match error with
                  | Some _ => ret (failure "Failed to remove admin" 500%Z)
                  | None =>
                      ret {| NextResponse.body :=
                               {| ApiBody.success := true;
                                  ApiBody.error := None;
                                  ApiBody.message :=
                                    Some "Admin access removed";
                                  ApiBody.status := None;
                                  ApiBody.data := None |};
                             NextResponse.status := 200%Z |}
                  end
            end
      end
  end.

(** [export async function DELETE]: the response and the table after. *)
Definition DELETE (supabase : Supabase.t) (request : NextRequest.t)
    (params_id : string) (table : Table) : NextResponse.t * Table :=
  try_catch (DELETE_try supabase request params_id)
            internal_error_response table.

(* ------------------------------------------------------------------ *)
(** ** supabase/migrations/20260225_create_admin_rbac.sql              *)
(* ------------------------------------------------------------------ *)

(** The values of [role_audits.action]. *)
Module Audit.
Inductive Action : Type :=
  | created
  | updated
  | deleted
  | suspended
  | reactivated.
End Audit.

(** One firing of the trigger [audit_role_changes], which is declared
    [AFTER INSERT OR UPDATE OR DELETE ... FOR EACH ROW]: [TG_OP] with the
    rows [OLD] and [NEW] that exist for it. *)
Inductive TriggerEvent : Type :=
| TG_INSERT (NEW : AdminUser.t)
| TG_UPDATE (OLD NEW : AdminUser.t)
| TG_DELETE (OLD : AdminUser.t).

(** The first part of [audit_role_change()]: the value of [action_type].
    [role] and [status] are [NOT NULL] columns, so the comparisons are
    two-valued. *)
Definition action_type (ev : TriggerEvent) : Audit.Action :=
  match ev with
  | TG_INSERT _ => Audit.created
  | TG_UPDATE OLD NEW =>
      if AdminStatus_beq (AdminUser.status OLD) suspended
         && AdminStatus_beq (AdminUser.status NEW) active
      then Audit.reactivated
      else if AdminStatus_beq (AdminUser.status NEW) suspended
              && negb (AdminStatus_beq (AdminUser.status OLD) suspended)
      then Audit.suspended
      else if negb (AdminRole_beq (AdminUser.role NEW) (AdminUser.role OLD))
      then Audit.updated
      else Audit.updated
  | TG_DELETE _ => Audit.deleted
  end.

(** The row written to [role_audits]; [OLD.x] is [NULL] on insert and
    [NEW.x] is [NULL] on delete. *)
Module RoleAudit.
Record t : Type := mk {
    admin_user_id : string;
    action : Audit.Action;
    old_role : option AdminRole;
    new_role : option AdminRole;
    old_permissions : option (list PermissionKey);
    new_permissions : option (list PermissionKey);
    changed_by : option string
  }.
End RoleAudit.

Definition audit_values (auth_uid : option string) (ev : TriggerEvent)
    : RoleAudit.t :=
  match ev with
  | TG_INSERT NEW =>
      {| RoleAudit.admin_user_id := AdminUser.id NEW;
         RoleAudit.action := action_type ev;
         RoleAudit.old_role := None;
         RoleAudit.new_role := Some (AdminUser.role NEW);
         RoleAudit.old_permissions := None;
         RoleAudit.new_permissions := AdminUser.custom_permissions NEW;
         RoleAudit.changed_by := auth_uid |}
  | TG_UPDATE OLD NEW =>
      {| RoleAudit.admin_user_id := AdminUser.id NEW;
         RoleAudit.action := action_type ev;
         RoleAudit.old_role := Some (AdminUser.role OLD);
         RoleAudit.new_role := Some (AdminUser.role NEW);
         RoleAudit.old_permissions := AdminUser.custom_permissions OLD;
         RoleAudit.new_permissions := AdminUser.custom_permissions NEW;
         RoleAudit.changed_by := auth_uid |}
  | TG_DELETE OLD =>
      {| RoleAudit.admin_user_id := AdminUser.id OLD;
         RoleAudit.action := action_type ev;
         RoleAudit.old_role := Some (AdminUser.role OLD);
         RoleAudit.new_role := None;
         RoleAudit.old_permissions := AdminUser.custom_permissions OLD;
         RoleAudit.new_permissions := None;
         RoleAudit.changed_by := auth_uid |}
  end.

(** How one run of [audit_role_change()] ends: the row is written, the
    insert is skipped, or the insert raises and the statement on
    [admin_users] that fired the trigger is rolled back. *)
Inductive AuditOutcome : Type :=
| AuditInserted (row : RoleAudit.t)
| AuditSkipped
| AuditRaises (sqlstate : string).

(** The [INSERT INTO role_audits] against the constraints of that table.
    [changed_by] is [NOT NULL] and refers to [users(id)]; [admin_user_id]
    refers to [admin_users(id)], and the trigger runs [AFTER] the delete,
    when the row with [OLD.id] is gone.  [users] are the ids of the
    [users] table. *)
Definition audit_insert (users : list string) (auth_uid : option string)
    (ev : TriggerEvent) : AuditOutcome :=
  match auth_uid with
  | None => AuditRaises "23502"
  | Some uid =>
      match ev with
      | TG_DELETE _ => AuditRaises "23503"
      | _ =>
          if existsb (String.eqb uid) users
          then AuditInserted (audit_values auth_uid ev)
          else AuditRaises "23503"
      end
  end.

(** [audit_role_change()]: the insert runs when
    [current_setting('app.audit_enabled', true) != 'false'] is true.  The
    setting is [NULL] when it was never set; the comparison is then [NULL]
    and the [IF] does not run its body. *)
Definition audit_role_change (audit_enabled auth_uid : option string)
    (users : list string) (ev : TriggerEvent) : AuditOutcome :=
  match audit_enabled with
  | Some v =>
      if String.eqb v "false" then AuditSkipped
      else audit_insert users auth_uid ev
  | None => AuditSkipped
  end.

(* ------------------------------------------------------------------ *)
(** ** The specification's wording, and sample data                    *)
(* ------------------------------------------------------------------ *)

(** The ranks as the specification lists them: super_admin=100,
    moderator=60, support=40, custom=30, analyst=20. *)
Definition spec_rank (r : AdminRole) : Z :=
  match r with
  | super_admin => 100
  | moderator => 60
  | support => 40
  | custom => 30
  | analyst => 20
  end%Z.

(** The action inference as the specification words it: [created] when
    no prior record existed, [suspended]/[reactivated] when only the status
    moves between suspended and active, [updated] for any other role or
    permission change, [deleted] when the record is removed. *)
Definition action_as_specified (ev : TriggerEvent) (a : Audit.Action)
    : Prop :=
  match ev with
  | TG_INSERT _ => a = Audit.created
  | TG_DELETE _ => a = Audit.deleted
  | TG_UPDATE OLD NEW =>
      let only_status :=
        AdminUser.role OLD = AdminUser.role NEW
        /\ AdminUser.custom_permissions OLD = AdminUser.custom_permissions NEW
      in
      (only_status
       /\ AdminUser.status OLD = active /\ AdminUser.status NEW = suspended
       -> a = Audit.suspended)
      /\ (only_status
          /\ AdminUser.status OLD = suspended /\ AdminUser.status NEW = active
          -> a = Audit.reactivated)
      /\ (~ only_status -> a = Audit.updated)
  end.

(** The union of the matrix entries of the four built-in roles. *)
Definition builtin_union : list PermissionKey :=
  ROLE_PERMISSIONS super_admin ++ ROLE_PERMISSIONS moderator
  ++ ROLE_PERMISSIONS support ++ ROLE_PERMISSIONS analyst.

Module Sample.

Definition admin (id uid : string) (r : AdminRole) (st : AdminStatus)
      : AdminUser.t :=
    {| AdminUser.id := id;
       AdminUser.user_id := uid;
       AdminUser.role := r;
       AdminUser.custom_permissions := None;
       AdminUser.assigned_at := "2026-02-25T00:00:00Z";
       AdminUser.assigned_by := "user-0";
       AdminUser.status := st;
       AdminUser.created_at := "2026-02-25T00:00:00Z";
       AdminUser.updated_at := "2026-02-25T00:00:00Z" |}.

  (** An active super admin, the same record once suspended, and an
      active moderator. *)
Definition root : AdminUser.t := admin "admin-1" "user-1" super_admin active.
Definition suspended_root : AdminUser.t :=
    admin "admin-1" "user-1" super_admin suspended.
Definition mod_admin : AdminUser.t := admin "admin-2" "user-2" moderator active.

  (** An identity provider that knows two tokens. *)
Definition supabase : Supabase.t :=
    {| Supabase.auth_getUser := fun token =>
         if String.eqb token "token-1"
         then Returns {| UserResponse.user := Some "user-1";
                         UserResponse.error := None |}
         else if String.eqb token "token-2"
         then Returns {| UserResponse.user := Some "user-2";
                         UserResponse.error := None |}
         else Returns {| UserResponse.user := None;
                         UserResponse.error := Some "invalid JWT" |};
       Supabase.now := "2026-03-01T12:00:00Z" |}.

Definition table : Table := Rows [root; mod_admin].

Definition body (status : option string) : PatchBody.t :=
    {| PatchBody.role := None;
       PatchBody.custom_permissions := Undefined;
       PatchBody.status := status;
       PatchBody.reason := None |}.

Definition request (token : string) (status : option string)
      : NextRequest.t :=
    {| NextRequest.authorization := Some ("Bearer " ++ token);
       NextRequest.json := Returns (body status) |}.

  (** A moderator record suspended, then reactivated as support. *)
Definition suspended_mod : AdminUser.t :=
    admin "admin-2" "user-2" moderator suspended.
Definition reactivated_as_support : AdminUser.t :=
    admin "admin-2" "user-2" support active.

End Sample.

(* ------------------------------------------------------------------ *)
(** ** lib/types/roles.ts and lib/auth/roles.ts, the metadata side     *)
(* ------------------------------------------------------------------ *)

(** The entries of [PERMISSION_METADATA]. *)
Module PermissionMeta.
Record t : Type := mk {
  label : string;
  description : string;
  category : string
}.
End PermissionMeta.

(** [const PERMISSION_METADATA: Record<PermissionKey, ...>] *)
Definition PERMISSION_METADATA (p : PermissionKey) : PermissionMeta.t :=
  match p with
  | users_view =>
      PermissionMeta.mk "View Users"
        "View user profiles and information"
        "User Management"
  | users_edit =>
      PermissionMeta.mk "Edit Users"
        "Edit user profiles and information"
        "User Management"
  | users_suspend =>
      PermissionMeta.mk "Suspend Users"
        "Suspend or ban user accounts"
        "User Management"
  | users_delete =>
      PermissionMeta.mk "Delete Users"
        "Permanently delete user accounts"
        "User Management"
  | users_assign_role =>
      PermissionMeta.mk "Assign Roles"
        "Assign or change admin roles"
        "User Management"
  | listings_view =>
      PermissionMeta.mk "View Listings"
        "View all listings"
        "Listing Management"
  | listings_edit =>
      PermissionMeta.mk "Edit Listings"
        "Edit listing details"
        "Listing Management"
  | listings_delete =>
      PermissionMeta.mk "Delete Listings"
        "Delete listings"
        "Listing Management"
  | listings_publish =>
      PermissionMeta.mk "Publish Listings"
        "Publish listings to public"
        "Listing Management"
  | listings_unpublish =>
      PermissionMeta.mk "Unpublish Listings"
        "Unpublish or archive listings"
        "Listing Management"
  | disputes_view =>
      PermissionMeta.mk "View Disputes"
        "View dispute tickets"
        "Disputes"
  | disputes_resolve =>
      PermissionMeta.mk "Resolve Disputes"
        "Resolve or close disputes"
        "Disputes"
  | disputes_appeal =>
      PermissionMeta.mk "Appeal Disputes"
        "Review appeals for disputes"
        "Disputes"
  | support_manage_tickets =>
      PermissionMeta.mk "Manage Support Tickets"
        "Create and manage support tickets"
        "Support"
  | support_respond =>
      PermissionMeta.mk "Respond to Tickets"
        "Respond to customer support tickets"
        "Support"
  | reports_view =>
      PermissionMeta.mk "View Reports"
        "View analytics and reports"
        "Reports"
  | reports_generate =>
      PermissionMeta.mk "Generate Reports"
        "Generate custom reports"
        "Reports"
  | reports_export =>
      PermissionMeta.mk "Export Reports"
        "Export report data"
        "Reports"
  | payments_view =>
      PermissionMeta.mk "View Payments"
        "View payment history"
        "Payments"
  | payments_refund =>
      PermissionMeta.mk "Process Refunds"
        "Issue refunds to users"
        "Payments"
  | payments_manage_fees =>
      PermissionMeta.mk "Manage Fees"
        "Configure payment fees"
        "Payments"
  | settings_admin =>
      PermissionMeta.mk "Admin Settings"
        "Change admin panel settings"
        "Settings"
  | settings_system =>
      PermissionMeta.mk "System Settings"
        "Change system-wide settings"
        "Settings"
  | audit_view =>
      PermissionMeta.mk "View Audit Logs"
        "View system audit logs"
        "Audit"
  | audit_export =>
      PermissionMeta.mk "Export Audit Logs"
        "Export audit log data"
        "Audit"
  | roles_view =>
      PermissionMeta.mk "View Roles"
        "View role definitions"
        "Roles & Permissions"
  | roles_create =>
      PermissionMeta.mk "Create Roles"
        "Create new custom roles"
        "Roles & Permissions"
  | roles_edit =>
      PermissionMeta.mk "Edit Roles"
        "Edit role permissions"
        "Roles & Permissions"
  | roles_delete =>
      PermissionMeta.mk "Delete Roles"
        "Delete custom roles"
        "Roles & Permissions"
  end.

(** The entries of [ROLE_METADATA]. *)
Module RoleMeta.
Record t : Type := mk {
  label : string;
  description : string;
  color : string;
  icon : string
}.
End RoleMeta.

(** [const ROLE_METADATA: Record<AdminRole, ...>] *)
Definition ROLE_METADATA (r : AdminRole) : RoleMeta.t :=
  match r with
  | super_admin =>
      RoleMeta.mk "Super Admin"
        "Full system access, can manage everything"
        "bg-red-100 text-red-800 dark:bg-red-900/30 dark:text-red-200"
        "👑"
  | moderator =>
      RoleMeta.mk "Moderator"
        "Content and user management"
        "bg-blue-100 text-blue-800 dark:bg-blue-900/30 dark:text-blue-200"
        "🛡️"
  | support =>
      RoleMeta.mk "Support Agent"
        "Help tickets and customer support"
        "bg-green-100 text-green-800 dark:bg-green-900/30 dark:text-green-200"
        "🎧"
  | analyst =>
      RoleMeta.mk "Analyst"
        "Read-only access to reports and analytics"
        "bg-purple-100 text-purple-800 dark:bg-purple-900/30 dark:text-purple-200"
        "📊"
  | custom =>
      RoleMeta.mk "Custom"
        "Custom permissions"
        "bg-gray-100 text-gray-800 dark:bg-gray-900/30 dark:text-gray-200"
        "⚙️"
  end.

(** [interface PermissionCheckResult] *)
Module PermissionCheckResult.
Record t : Type := mk {
  allowed : bool;
  reason : option string;
  required_permission : PermissionKey;
  user_has_permission : bool
}.
End PermissionCheckResult.

Definition checkPermission (context : AuthorizationContext.t)
    (permission : PermissionKey) : PermissionCheckResult.t :=
  let allowed := hasPermission context permission in
  {| PermissionCheckResult.allowed := allowed;
     PermissionCheckResult.required_permission := permission;
     PermissionCheckResult.user_has_permission := allowed;
     PermissionCheckResult.reason :=
       if allowed then None
       else Some ("User lacks permission: " ++ permission_key_string permission)
  |}.

Definition getRoleMetadata (role : AdminRole) : RoleMeta.t :=
  ROLE_METADATA role.

(** [getRoleLabel]: [ROLE_METADATA[role]?.label || role].  The callers in
    [formatAuditAction] pass [old_role!] and [new_role!], which may be
    [undefined] at run time; [None] is [undefined], for the argument and
    for the result.  A label is never the empty string, so [||] keeps
    it. *)
Definition getRoleLabel (role : option AdminRole) : option string :=
  match role with
  | Some r =>
      let label := RoleMeta.label (ROLE_METADATA r) in
      if String.eqb label "" then Some (role_string r) else Some label
  | None => None
  end.

(** A value inside a template literal: [undefined] prints as the word. *)
Definition interpolate (s : option string) : string :=
  nullish s "undefined".

Definition formatAuditAction (action : string)
    (old_role new_role : option AdminRole) : string :=
  if String.eqb action "created"
  then "Assigned role: " ++ interpolate (getRoleLabel new_role)
  else if String.eqb action "updated"
  then "Role changed from " ++ interpolate (getRoleLabel old_role)
       ++ " to " ++ interpolate (getRoleLabel new_role)
  else if String.eqb action "deleted"
  then "Removed from admin: was " ++ interpolate (getRoleLabel old_role)
  else if String.eqb action "suspended"
  then "Suspended admin access"
  else if String.eqb action "reactivated"
  then "Reactivated admin access"
  else action.

(** The text stored in [role_audits.action] for each tag. *)
Definition action_string (a : Audit.Action) : string :=
  match a with
  | Audit.created => "created"
  | Audit.updated => "updated"
  | Audit.deleted => "deleted"
  | Audit.suspended => "suspended"
  | Audit.reactivated => "reactivated"
  end.

(** The local array [allPermissions] of [getPermissionsByCategory]. *)
Definition allPermissions : list PermissionKey :=
  [ users_view; users_edit; users_suspend; users_delete; users_assign_role;
    listings_view; listings_edit; listings_delete; listings_publish;
    listings_unpublish;
    disputes_view; disputes_resolve; disputes_appeal;
    support_manage_tickets; support_respond;
    reports_view; reports_generate; reports_export;
    payments_view; payments_refund; payments_manage_fees;
    settings_admin; settings_system; audit_view; audit_export;
    roles_view; roles_create; roles_edit; roles_delete ].

(** The object [categories: Record<string, PermissionKey[]>]: its keys in
    insertion order, each with its array. *)
Definition Categories : Type := list (string * list PermissionKey).

(** [categories[category]] *)
Fixpoint categories_get (categories : Categories) (category : string)
    : option (list PermissionKey) :=
  match categories with
  | [] => None
  | (k, v) :: rest =>
      if String.eqb k category then Some v else categories_get rest category
  end.

(** [if (!categories[category]) categories[category] = [];
    categories[category].push(permission)]: a new key goes last, a known
    key gets the permission at the end of its array. *)
Fixpoint categories_push (categories : Categories) (category : string)
    (permission : PermissionKey) : Categories :=
  match categories with
  | [] => [(category, [permission])]
  | (k, v) :: rest =>
      if String.eqb k category then (k, (v ++ [permission])%list) :: rest
      else (k, v) :: categories_push rest category permission
  end.

(** The [forEach] loop over any array of permissions; every key has an
    entry in [PERMISSION_METADATA], so [if (metadata)] always holds. *)
Definition group_by_category (permissions : list PermissionKey)
    (categories : Categories) : Categories :=
  fold_left
    (fun cats permission =>
       categories_push cats
         (PermissionMeta.category (PERMISSION_METADATA permission))
         permission)
    permissions categories.

Definition getPermissionsByCategory : Categories :=
  group_by_category allPermissions [].

(* ------------------------------------------------------------------ *)
(** ** middleware/authorization.ts, the helper                         *)
(* ------------------------------------------------------------------ *)

Definition contextHasPermission (context : option AuthorizationContext.t)
    (permission : PermissionKey) : bool :=
  match context with
  | Some c => hasPermission c permission
  | None => false
  end.

(* ------------------------------------------------------------------ *)
(** ** components/admin/PermissionGuard.tsx                            *)
(* ------------------------------------------------------------------ *)

(** A guard returns one of the two nodes it is given; [ReactNode] is any
    type.  The default [fallback = null] is the caller's argument. *)
Section Guards.

Variable ReactNode : Type.

Definition PermissionGuard (context : option AuthorizationContext.t)
    (permission : option RequiredPermission) (requireAll : bool)
    (children fallback : ReactNode) : ReactNode :=
  match context with
  | None => fallback
  | Some c =>
      match permission with
      | None => children
      | Some rp =>
          let permissions := as_array rp in
          let hasRequired :=
            if requireAll
            then forallb (fun p => hasPermission c p) permissions
            else existsb (fun p => hasPermission c p) permissions in
          if hasRequired then children else fallback
      end
  end.

(** The prop [roles: AdminRole | AdminRole[]]. *)
Inductive Roles : Type :=
| OneRole (r : AdminRole)
| RoleArray (rs : list AdminRole).

(** [roleArray.includes(context.role as AdminRole)]: an array of roles
    does not include [undefined]. *)
Definition RoleGuard (context : option AuthorizationContext.t)
    (roles : Roles) (children fallback : ReactNode) : ReactNode :=
  match context with
  | None => fallback
  | Some c =>
      let roleArray :=
        match roles with
        | OneRole r => [r]
        | RoleArray rs => rs
        end in
      let hasRole :=
        match AuthorizationContext.role c with
        | Some r => existsb (AdminRole_beq r) roleArray
        | None => false
        end in
      if hasRole then children else fallback
  end.

Definition AdminGuard (context : option AuthorizationContext.t)
    (children fallback : ReactNode) : ReactNode :=
  match context with
  | Some c => if AuthorizationContext.is_admin c then children else fallback
  | None => fallback
  end.

Definition SuperAdminGuard (context : option AuthorizationContext.t)
    (children fallback : ReactNode) : ReactNode :=
  match context with
  | Some c =>
      if AuthorizationContext.is_super_admin c then children else fallback
  | None => fallback
  end.

(** [ConditionalWrapper]: the [className] of the [div] it renders around
    [children]. *)
Definition ConditionalWrapper (context : option AuthorizationContext.t)
    (permission : option RequiredPermission) (requireAll : bool)
    (disabledClassName : string) : string :=
  match permission, context with
  | Some rp, Some c =>
      let permissions := as_array rp in
      let hasRequired :=
        if requireAll
        then forallb (fun p => hasPermission c p) permissions
        else existsb (fun p => hasPermission c p) permissions in
      if negb hasRequired then disabledClassName else ""
  | _, None => disabledClassName
  | None, Some _ => ""
  end.

End Guards.

(** What the hook [usePermission] returns. *)
Module UsePermission.
Record t : Type := mk {
  has : PermissionKey -> bool;
  hasAll : list PermissionKey -> bool;
  hasAny : list PermissionKey -> bool;
  isAdmin : bool;
  isSuperAdmin : bool;
  role : option AdminRole
}.
End UsePermission.

Definition usePermission (context : option AuthorizationContext.t)
    : UsePermission.t :=
  {| UsePermission.has := fun permission =>
       match context with
       | Some c => hasPermission c permission
       | None => false
       end;
     UsePermission.hasAll := fun permissions =>
       match context with
       | Some c => forallb (fun p => hasPermission c p) permissions
       | None => false
       end;
     UsePermission.hasAny := fun permissions =>
       match context with
       | Some c => existsb (fun p => hasPermission c p) permissions
       | None => false
       end;
     UsePermission.isAdmin :=
       match context with
       | Some c => AuthorizationContext.is_admin c
       | None => false
       end;
     UsePermission.isSuperAdmin :=
       match context with
       | Some c => AuthorizationContext.is_super_admin c
       | None => false
       end;
     UsePermission.role :=
       match context with
       | Some c => AuthorizationContext.role c
       | None => None
       end |}.

(* ------------------------------------------------------------------ *)
(** ** api/admin/roles/route.ts: POST                                  *)
(* ------------------------------------------------------------------ *)

(** The body of a [POST] request after [request.json()]. *)
Module PostBody.
Record t : Type := mk {
  user_id : option string;
  role : option string;
  custom_permissions : JsonField (list PermissionKey);
  reason : option string
}.
End PostBody.

Module PostRequest.
Record t : Type := mk {
  authorization : option string;
  json : Outcome PostBody.t
}.
End PostRequest.

(** What else of the database an insert into [admin_users] depends on:
    the ids of the [users] table, which the foreign keys refer to, and the
    value [gen_random_uuid()] gives for the new [id]. *)
Module Postgres.
Record t : Type := mk {
  users : list string;
  gen_random_uuid : string
}.
End Postgres.

(** [supabase.from('users').select('id').eq('id', user_id).single()];
    only the presence of [data] is read. *)
Definition select_user (pg : Postgres.t) (user_id : string)
    : Handler (option string) :=
  fun t =>
    match t with
    | Rows _ =>
        (Returns match List.filter (String.eqb user_id) (Postgres.users pg) with
                 | [u] => Some u
                 | _ => None
                 end, t)
    | QueryError _ => (Returns None, t)
    | QueryThrows => (Throws, t)
    end.

(** [.eq('user_id', user_id)] *)
Definition has_user_id (user_id : string) (row : AdminUser.t) : bool :=
  String.eqb (AdminUser.user_id row) user_id.

(** The row [INSERT INTO admin_users] makes of the values the handler
    gives; [id] and the three timestamps take their column defaults. *)
Definition new_admin_row (supabase : Supabase.t) (pg : Postgres.t)
    (user_id : string) (role : AdminRole)
    (custom_permissions : option (list PermissionKey))
    (assigned_by : string) : AdminUser.t :=
  {| AdminUser.id := Postgres.gen_random_uuid pg;
     AdminUser.user_id := user_id;
     AdminUser.role := role;
     AdminUser.custom_permissions := custom_permissions;
     AdminUser.assigned_at := Supabase.now supabase;
     AdminUser.assigned_by := assigned_by;
     AdminUser.status := active;
     AdminUser.created_at := Supabase.now supabase;
     AdminUser.updated_at := Supabase.now supabase |}.

(** The constraints of [admin_users] an insert can break: the check
    [admin_users_role_check], the primary key on [id], [UNIQUE] on
    [user_id], and the two references to [users(id)]. *)
Definition insert_violation (pg : Postgres.t) (rows : list AdminUser.t)
    (row : AdminUser.t) : option string :=
  if negb (admin_users_role_check row) then Some "23514"
  else if existsb (has_id (AdminUser.id row)) rows then Some "23505"
  else if existsb (has_user_id (AdminUser.user_id row)) rows
  then Some "23505"
  else if negb (existsb (String.eqb (AdminUser.user_id row))
                        (Postgres.users pg))
  then Some "23503"
  else if negb (existsb (String.eqb (AdminUser.assigned_by row))
                        (Postgres.users pg))
  then Some "23503"
  else None.

(** [.insert({...}).select().single()] *)
Definition insert_single (pg : Postgres.t) (row : AdminUser.t)
    : Handler Single.t :=
  fun t =>
    match t with
    | Rows rows =>
        match insert_violation pg rows row with
        | Some code =>
            (Returns {| Single.data := None; Single.error := Some code |}, t)
        | None => (Returns (single [row]), Rows (rows ++ [row]))
        end
    | QueryError msg =>
        (Returns {| Single.data := None; Single.error := Some msg |}, t)
    | QueryThrows => (Throws, t)
    end.

(** The part of [POST] after the caller was found to be a super admin. *)
Definition POST_assign (supabase : Supabase.t) (pg : Postgres.t)
    (request : PostRequest.t) (uid : string) : Handler NextResponse.t :=
  body <- lift (PostRequest.json request) ;;
  match truthy (PostBody.user_id body), truthy (PostBody.role body) with
  | Some user_id, Some role =>
      match parse_role role with
      | None => ret (failure "Invalid role" 400%Z)
      | Some r =>
          user <- select_user pg user_id ;;
          match user with
          | None => ret (failure "User not found" 404%Z)
          | Some _ =>
              existingAdmin <- select_single (has_user_id user_id) ;;
              match Single.data existingAdmin with
              | Some _ => ret (failure "User is already an admin" 400%Z)
              | None =>
                  let custom_permissions :=
                    match r, PostBody.custom_permissions body with
                    | custom, Value ps => Some ps
                    | _, _ => None
                    end in
                  res <- insert_single pg
                           (new_admin_row supabase pg user_id r
                                          custom_permissions uid) ;;
                  match Single.error res with
                  | Some _ => ret (failure "Failed to assign role" 500%Z)
                  | None =>
                      ret {| NextResponse.body :=
                               {| ApiBody.success := true;
                                  ApiBody.error := None;
                                  ApiBody.message :=
                                    Some ("User assigned role: " ++ role);
                                  ApiBody.status := None;
                                  ApiBody.data := Single.data res |};
                             NextResponse.status := 201%Z |}
                  end
              end
          end
      end
  | _, _ => ret (failure "Missing required fields: user_id, role" 400%Z)
  end.

Definition POST_try (supabase : Supabase.t) (pg : Postgres.t)
    (request : PostRequest.t) : Handler NextResponse.t :=
  match bearer_token (PostRequest.authorization request) with
  | None => ret access_denied_response
  | Some token =>
      userData <- lift (Supabase.auth_getUser supabase token) ;;
      match UserResponse.error userData, UserResponse.user userData with
      | None, Some uid =>
          currentAdmin <- select_single (active_admin_of uid) ;;
          if not_super_admin (Single.data currentAdmin)
          then
            ret {| NextResponse.body :=
                     permissionDeniedError (Some users_assign_role);
                   NextResponse.status := 403%Z |}
          else POST_assign supabase pg request uid
      | _, _ => ret access_denied_response
      end
  end.

(** [export async function POST]: the response and the table after. *)
Definition POST (supabase : Supabase.t) (pg : Postgres.t)
    (request : PostRequest.t) (table : Table) : NextResponse.t * Table :=
  try_catch (POST_try supabase pg request) internal_error_response table.

Module SamplePost.

(** The [users] table knows four ids; the next uuid is free. *)
Definition pg : Postgres.t :=
  {| Postgres.users := ["user-0"; "user-1"; "user-2"; "user-3"];
     Postgres.gen_random_uuid := "admin-3" |}.

Definition request (token user_id role : string)
    (custom_permissions : JsonField (list PermissionKey)) : PostRequest.t :=
  {| PostRequest.authorization := Some ("Bearer " ++ token);
     PostRequest.json :=
       Returns {| PostBody.user_id := Some user_id;
                  PostBody.role := Some role;
                  PostBody.custom_permissions := custom_permissions;
                  PostBody.reason := None |} |}.

End SamplePost.

(** The caller of a request is an active super admin of the table: the
    bearer token resolves to a user who has a row with role super_admin
    and status active. *)
Definition active_super_admin_caller (supabase : Supabase.t)
    (authorization : option string) (table : Table) : Prop :=
  exists token resp uid rows a,
    bearer_token authorization = Some token
    /\ Supabase.auth_getUser supabase token = Returns resp
    /\ UserResponse.user resp = Some uid
    /\ table = Rows rows
    /\ In a rows
    /\ AdminUser.user_id a = uid
    /\ AdminUser.status a = active
    /\ AdminUser.role a = super_admin.

(* ------------------------------------------------------------------ *)
(** ** Boolean equality of the enumerations                            *)
(* ------------------------------------------------------------------ *)

Lemma AdminRole_beq_eq (a b : AdminRole) : AdminRole_beq a b = true <-> a = b.
Proof. destruct a, b; simpl; split; congruence. Qed.

Lemma AdminStatus_beq_eq (a b : AdminStatus) :
  AdminStatus_beq a b = true <-> a = b.
Proof. destruct a, b; simpl; split; congruence. Qed.

Lemma PermissionKey_beq_eq (a b : PermissionKey) :
  PermissionKey_beq a b = true <-> a = b.
Proof.
  split.
  - apply internal_PermissionKey_dec_bl.
  - apply internal_PermissionKey_dec_lb.
Qed.

Lemma AdminStatus_beq_active_false (s : AdminStatus) :
  s <> active -> AdminStatus_beq s active = false.
Proof. destruct s; simpl; congruence. Qed.

(** [includes] is list membership. *)
Lemma hasPermission_In (context : AuthorizationContext.t) (p : PermissionKey) :
  hasPermission context p = true
  <-> In p (AuthorizationContext.permissions context).
Proof.
  unfold hasPermission. rewrite existsb_exists. split.
  - intros [q [Hin Heq]]. apply PermissionKey_beq_eq in Heq. now subst.
  - intros Hin. exists p. split; [assumption | now apply PermissionKey_beq_eq].
Qed.

(* ------------------------------------------------------------------ *)
(** ** The context builder                                             *)
(* ------------------------------------------------------------------ *)

(** C1, as stated, fails: the context built from a suspended super_admin
    record is not a super-admin context, but its permission list is the
    whole super_admin entry of the matrix, not the empty list. *)
Lemma suspended_super_admin_keeps_permissions :
  AdminUser.status Sample.suspended_root <> active
  /\ AuthorizationContext.is_super_admin
       (createAuthorizationContext Sample.suspended_root) = false
  /\ AuthorizationContext.permissions
       (createAuthorizationContext Sample.suspended_root)
     = ROLE_PERMISSIONS super_admin
  /\ AuthorizationContext.permissions
       (createAuthorizationContext Sample.suspended_root) <> []
  /\ hasPermission (createAuthorizationContext Sample.suspended_root)
                   users_delete = true.
Proof.
  repeat split; try reflexivity; simpl; discriminate.
Qed.

(** C1, amended: a record whose status is not active, whatever its role,
    gives a context with [is_admin = false] and [is_super_admin = false];
    the builder does not look at the status for the permission list, which
    is the list of an active record with the same role and custom
    permissions. *)
Theorem inactive_context_flags (admin : AdminUser.t) :
  AdminUser.status admin <> active ->
  AuthorizationContext.is_admin (createAuthorizationContext admin) = false
  /\ AuthorizationContext.is_super_admin (createAuthorizationContext admin)
     = false
  /\ forall st,
       AuthorizationContext.permissions (createAuthorizationContext admin)
       = AuthorizationContext.permissions
           (createAuthorizationContext
              {| AdminUser.id := AdminUser.id admin;
                 AdminUser.user_id := AdminUser.user_id admin;
                 AdminUser.role := AdminUser.role admin;
                 AdminUser.custom_permissions :=
                   AdminUser.custom_permissions admin;
                 AdminUser.assigned_at := AdminUser.assigned_at admin;
                 AdminUser.assigned_by := AdminUser.assigned_by admin;
                 AdminUser.status := st;
                 AdminUser.created_at := AdminUser.created_at admin;
                 AdminUser.updated_at := AdminUser.updated_at admin |}).
Proof.
  intros Hst. simpl.
  rewrite (AdminStatus_beq_active_false Hst).
  repeat split. apply andb_false_r.
Qed.

Lemma inactive_context_flags_witness :
  AdminUser.status Sample.suspended_root <> active
  /\ AuthorizationContext.is_admin
       (createAuthorizationContext Sample.suspended_root) = false
  /\ AuthorizationContext.is_super_admin
       (createAuthorizationContext Sample.suspended_root) = false.
Proof.
  assert (H : AdminUser.status Sample.suspended_root <> active)
    by (simpl; discriminate).
  split; [exact H |].
  destruct (inactive_context_flags Sample.suspended_root H) as [Ha [Hs _]].
  split; [exact Ha | exact Hs].
Defined.

(** C9: a context that is a super-admin context is an admin context. *)
Theorem super_admin_context_is_admin (admin : AdminUser.t) :
  AuthorizationContext.is_super_admin (createAuthorizationContext admin)
  = true ->
  AuthorizationContext.is_admin (createAuthorizationContext admin) = true.
Proof.
  simpl. intros H. apply andb_true_iff in H. tauto.
Qed.

Lemma super_admin_context_is_admin_witness :
  AuthorizationContext.is_super_admin (createAuthorizationContext Sample.root)
  = true
  /\ AuthorizationContext.is_admin (createAuthorizationContext Sample.root)
     = true.
Proof.
  split; [reflexivity |].
  apply (super_admin_context_is_admin Sample.root). reflexivity.
Defined.

(** C6: for the custom role the stored explicit list is returned as it
    is, the matrix entry of custom is empty, and a custom record with no
    explicit list gets the empty list; the same holds of the context
    built from a custom record. *)
Theorem custom_permissions_exact :
  (forall explicit, getRolePermissions custom (Some explicit) = explicit)
  /\ ROLE_PERMISSIONS custom = []
  /\ getRolePermissions custom None = []
  /\ (forall admin,
        AdminUser.role admin = custom ->
        AuthorizationContext.permissions (createAuthorizationContext admin)
        = nullish (AdminUser.custom_permissions admin) []).
Proof.
  repeat split.
  intros admin Hr. simpl. rewrite Hr.
  destruct (AdminUser.custom_permissions admin); reflexivity.
Qed.

(* ------------------------------------------------------------------ *)
(** ** The permission matrix                                           *)
(* ------------------------------------------------------------------ *)

Lemma catalog_complete (p : PermissionKey) : In p PERMISSION_CATALOG.
Proof. destruct p; simpl; tauto. Qed.

Lemma super_admin_has_all (p : PermissionKey) :
  In p (ROLE_PERMISSIONS super_admin).
Proof. destruct p; simpl; tauto. Qed.

(** The super_admin entry is the catalog, key for key, and the catalog
    lists 29 distinct keys. *)
Lemma super_admin_entry_is_catalog :
  ROLE_PERMISSIONS super_admin = PERMISSION_CATALOG
  /\ List.length PERMISSION_CATALOG = 29%nat
  /\ NoDup PERMISSION_CATALOG.
Proof.
  split; [reflexivity |]. split; [reflexivity |].
  unfold PERMISSION_CATALOG.
  repeat (constructor; [simpl; intuition discriminate |]).
  constructor.
Qed.

(** C8: every permission key is in the matrix entry of some role other
    than custom, and the union of the four built-in entries has the same
    members as the catalog. *)
Theorem matrix_completeness :
  (forall p : PermissionKey,
     exists r, r <> custom /\ In p (ROLE_PERMISSIONS r))
  /\ (forall p : PermissionKey,
        In p builtin_union <-> In p PERMISSION_CATALOG).
Proof.
  split.
  - intros p. exists super_admin. split.
    + discriminate.
    + apply super_admin_has_all.
  - intros p. split; intros _.
    + apply catalog_complete.
    + unfold builtin_union. apply in_or_app. left. apply super_admin_has_all.
Qed.

(* ------------------------------------------------------------------ *)
(** ** The role hierarchy                                              *)
(* ------------------------------------------------------------------ *)

(** The table of the source holds the ranks of the specification. *)
Lemma hierarchy_lookup_rank (r : AdminRole) :
  hierarchy_lookup ROLE_HIERARCHY r = Some (spec_rank r).
Proof. destruct r; reflexivity. Qed.

Lemma canManageRole_unfold (m t : AdminRole) :
  canManageRole m t
  = AdminRole_beq m super_admin || (spec_rank t <? spec_rank m)%Z.
Proof.
  unfold canManageRole. rewrite !hierarchy_lookup_rank. simpl.
  destruct (AdminRole_beq m super_admin); reflexivity.
Qed.

(** C2: over the 25 pairs of roles, [canManageRole] holds exactly when
    the manager is super_admin or outranks the target; a manager other
    than super_admin is denied every target of equal or higher rank, its
    own role included. *)
Theorem canManageRole_exact :
  (forall m t : AdminRole,
     canManageRole m t = true
     <-> m = super_admin \/ (spec_rank m > spec_rank t)%Z)
  /\ (forall m t : AdminRole,
        m <> super_admin -> (spec_rank m <= spec_rank t)%Z ->
        canManageRole m t = false)
  /\ (forall r : AdminRole, r <> super_admin -> canManageRole r r = false).
Proof.
  assert (Hiff : forall m t : AdminRole,
             canManageRole m t = true
             <-> m = super_admin \/ (spec_rank m > spec_rank t)%Z).
  { intros m t. rewrite canManageRole_unfold, orb_true_iff.
    rewrite AdminRole_beq_eq, Z.ltb_lt. split; intros [H | H]; auto.
    - right. lia.
    - right. lia. }
  split; [exact Hiff |]. split.
  - intros m t Hm Hle.
    destruct (canManageRole m t) eqn:E; [| reflexivity].
    apply Hiff in E. destruct E as [E | E]; [contradiction | lia].
  - intros r Hr.
    destruct (canManageRole r r) eqn:E; [| reflexivity].
    apply Hiff in E. destruct E as [E | E]; [contradiction | lia].
Qed.

(** C5: [validateRoleAssignment] holds exactly when the assigner has
    [users.assign_role], has a role, and that role can manage the
    target. *)
Theorem validateRoleAssignment_exact
    (assigner_context : AuthorizationContext.t) (target_role : AdminRole) :
  validateRoleAssignment assigner_context target_role = true
  <-> hasPermission assigner_context users_assign_role = true
      /\ exists r,
           AuthorizationContext.role assigner_context = Some r
           /\ canManageRole r target_role = true.
Proof.
  unfold validateRoleAssignment.
  destruct (hasPermission assigner_context users_assign_role); simpl.
  - destruct (AuthorizationContext.role assigner_context) as [r |].
    + split.
      * intros H. split; [reflexivity |]. exists r. auto.
      * intros [_ [r' [Hr Hc]]]. congruence.
    + split; [discriminate |]. intros [_ [r' [Hr _]]]. discriminate.
  - split; [discriminate |]. intros [H _]. discriminate.
Qed.

(** Either check failing denies the assignment. *)
Lemma validateRoleAssignment_denied
    (assigner_context : AuthorizationContext.t) (target_role : AdminRole) :
  (hasPermission assigner_context users_assign_role = false
   \/ forall r, AuthorizationContext.role assigner_context = Some r ->
                canManageRole r target_role = false) ->
  validateRoleAssignment assigner_context target_role = false.
Proof.
  unfold validateRoleAssignment. intros [H | H].
  - rewrite H. reflexivity.
  - destruct (hasPermission assigner_context users_assign_role); simpl;
      [| reflexivity].
    destruct (AuthorizationContext.role assigner_context) as [r |];
      [| reflexivity].
    now apply H.
Qed.

(* ------------------------------------------------------------------ *)
(** ** authorizeRequest                                                *)
(* ------------------------------------------------------------------ *)

Section Middleware.

Variable supabase : Supabase.t.
Variable request : NextRequest.t.

(** Unfolds the monadic layers of [authorizeRequest]. *)
Ltac run_authorize :=
  unfold requireAllPermissions, requireAnyPermission, requireAdminAccess,
    authorizeRequest, try_catch, authorizeRequest_try, bind, lift, ret,
    select_single.

(** No bearer token: access denied. *)
Lemma authorizeRequest_no_token table rp requireAll :
  bearer_token (NextRequest.authorization request) = None ->
  AuthorizationResult.response
    (authorizeRequest supabase table request rp requireAll)
  = Some access_denied_response.
Proof. intros H. run_authorize. rewrite H. reflexivity. Qed.

(** A token the identity provider does not resolve to a user: access
    denied. *)
Lemma authorizeRequest_invalid_principal table rp requireAll token resp :
  bearer_token (NextRequest.authorization request) = Some token ->
  Supabase.auth_getUser supabase token = Returns resp ->
  UserResponse.error resp <> None \/ UserResponse.user resp = None ->
  AuthorizationResult.response
    (authorizeRequest supabase table request rp requireAll)
  = Some access_denied_response.
Proof.
  intros Ht Hu Hbad. run_authorize. rewrite Ht, Hu.
  destruct (UserResponse.error resp), (UserResponse.user resp);
    try reflexivity.
  destruct Hbad; congruence.
Qed.

(** A resolved user with no single active row in [admin_users]: the same
    access-denied response. *)
Lemma authorizeRequest_no_active_admin rows rp requireAll token uid :
  bearer_token (NextRequest.authorization request) = Some token ->
  Supabase.auth_getUser supabase token
  = Returns {| UserResponse.user := Some uid; UserResponse.error := None |} ->
  (forall a, List.filter (active_admin_of uid) rows <> [a]) ->
  AuthorizationResult.response
    (authorizeRequest supabase (Rows rows) request rp requireAll)
  = Some access_denied_response.
Proof.
  intros Ht Hu Hnone. run_authorize. rewrite Ht, Hu. simpl.
  destruct (List.filter (active_admin_of uid) rows) as [| a [| b l]];
    try reflexivity.
  exfalso. now apply (Hnone a).
Qed.

(** A store that answers the lookup with an error is reported as access
    denied as well. *)
Lemma authorizeRequest_store_error msg rp requireAll token uid :
  bearer_token (NextRequest.authorization request) = Some token ->
  Supabase.auth_getUser supabase token
  = Returns {| UserResponse.user := Some uid; UserResponse.error := None |} ->
  AuthorizationResult.response
    (authorizeRequest supabase (QueryError msg) request rp requireAll)
  = Some access_denied_response.
Proof. intros Ht Hu. run_authorize. rewrite Ht, Hu. reflexivity. Qed.

(** A collaborator that throws gives the internal-error response, which
    is not the access-denied response. *)
Lemma authorizeRequest_identity_provider_throws table rp requireAll token :
  bearer_token (NextRequest.authorization request) = Some token ->
  Supabase.auth_getUser supabase token = Throws ->
  AuthorizationResult.response
    (authorizeRequest supabase table request rp requireAll)
  = Some internal_error_response.
Proof. intros Ht Hu. run_authorize. rewrite Ht, Hu. reflexivity. Qed.

Lemma authorizeRequest_store_throws rp requireAll token uid :
  bearer_token (NextRequest.authorization request) = Some token ->
  Supabase.auth_getUser supabase token
  = Returns {| UserResponse.user := Some uid; UserResponse.error := None |} ->
  AuthorizationResult.response
    (authorizeRequest supabase QueryThrows request rp requireAll)
  = Some internal_error_response.
Proof. intros Ht Hu. run_authorize. rewrite Ht, Hu. reflexivity. Qed.

Lemma internal_error_is_not_access_denied :
  internal_error_response <> access_denied_response.
Proof. discriminate. Qed.

(** An active admin who fails the check gets [PERMISSION_DENIED] built
    from the first element of the required list. *)
Lemma authorizeRequest_permission_denied
    rows rp (requireAll : bool) token uid adminData :
  bearer_token (NextRequest.authorization request) = Some token ->
  Supabase.auth_getUser supabase token
  = Returns {| UserResponse.user := Some uid; UserResponse.error := None |} ->
  List.filter (active_admin_of uid) rows = [adminData] ->
  (if requireAll
   then hasAllPermissions (createAuthorizationContext adminData) (as_array rp)
   else hasAnyPermission (createAuthorizationContext adminData) (as_array rp))
  = false ->
  AuthorizationResult.response
    (authorizeRequest supabase (Rows rows) request (Some rp) requireAll)
  = Some {| NextResponse.body := permissionDeniedError (hd_error (as_array rp));
            NextResponse.status := 403%Z |}.
Proof.
  intros Ht Hu Hrow Hfail. run_authorize. rewrite Ht, Hu. simpl.
  rewrite Hrow. simpl.
  unfold hasAllPermissions, hasAnyPermission in Hfail.
  destruct requireAll; rewrite Hfail; reflexivity.
Qed.

(** An active admin is granted when no permission is required; the
    context returned is built from the active row. *)
Lemma authorizeRequest_active_admin rows token uid adminData :
  bearer_token (NextRequest.authorization request) = Some token ->
  Supabase.auth_getUser supabase token
  = Returns {| UserResponse.user := Some uid; UserResponse.error := None |} ->
  List.filter (active_admin_of uid) rows = [adminData] ->
  authorizeRequest supabase (Rows rows) request None true
  = {| AuthorizationResult.authorized := true;
       AuthorizationResult.context :=
         Some (createAuthorizationContext adminData);
       AuthorizationResult.response := None;
       AuthorizationResult.userId := Some uid;
       AuthorizationResult.adminId := Some (AdminUser.id adminData) |}.
Proof.
  intros Ht Hu Hrow. run_authorize. rewrite Ht, Hu. simpl.
  rewrite Hrow. reflexivity.
Qed.

(** Every context that [authorizeRequest] returns was built from a row
    selected with [status = 'active']: it is an admin context. *)
Lemma authorizeRequest_context_is_admin table rp requireAll c :
  AuthorizationResult.context
    (authorizeRequest supabase table request rp requireAll) = Some c ->
  AuthorizationContext.is_admin c = true.
Proof.
  run_authorize.
  destruct (bearer_token (NextRequest.authorization request)) as [token |];
    [| discriminate].
  destruct (Supabase.auth_getUser supabase token) as [resp |];
    [| discriminate].
  destruct (UserResponse.error resp); [discriminate |].
  destruct (UserResponse.user resp) as [uid |]; [| discriminate].
  destruct table as [rows | msg |]; simpl; try discriminate.
  destruct (List.filter (active_admin_of uid) rows) as [| a [| b l]] eqn:Hf;
    simpl; try discriminate.
  assert (Ha : active_admin_of uid a = true).
  { assert (Hin : In a (List.filter (active_admin_of uid) rows))
      by (rewrite Hf; left; reflexivity).
    apply filter_In in Hin. tauto. }
  unfold active_admin_of in Ha. apply andb_true_iff in Ha.
  destruct Ha as [_ Ha].
  destruct rp as [rp |].
  - match goal with
    | |- context [negb ?b] => destruct b
    end; simpl; intros E; injection E as <-; exact Ha.
  - intros E; injection E as <-; exact Ha.
Qed.


End Middleware.




(** C4, at a moderator who must hold both [users.view] and
    [users.delete]: the check fails on [users.delete], and the response
    names [users.view], the first key of the list, which the moderator
    holds. *)
Theorem permission_denied_names_first_key :
  let auth :=
    requireAllPermissions Sample.supabase Sample.table
                          (Sample.request "token-2" None)
                          [users_view; users_delete] in
  let context := createAuthorizationContext Sample.mod_admin in
  AuthorizationResult.authorized auth = false
  /\ AuthorizationResult.context auth = Some context
  /\ AuthorizationResult.response auth
     = Some {| NextResponse.body := permissionDeniedError (Some users_view);
               NextResponse.status := 403%Z |}
  /\ ApiBody.message (permissionDeniedError (Some users_view))
     = Some "User lacks required permission: users.view"
  /\ hasPermission context users_view = true
  /\ hasPermission context users_delete = false.
Proof. vm_compute. repeat split. Qed.

(** Under OR semantics an empty required list is denied with a body that
    names no permission key at all. *)
Lemma permission_denied_names_no_key :
  AuthorizationResult.response
    (requireAnyPermission Sample.supabase Sample.table
                          (Sample.request "token-2" None) [])
  = Some {| NextResponse.body := permissionDeniedError None;
            NextResponse.status := 403%Z |}.
Proof. reflexivity. Qed.

(* ------------------------------------------------------------------ *)
(** ** PATCH and DELETE on one admin record                            *)
(* ------------------------------------------------------------------ *)

Section SelfProtection.

Variable supabase : Supabase.t.
Variable request : NextRequest.t.
Variables (token uid params_id : string).
Variable rows : list AdminUser.t.
Variables (currentAdmin targetAdmin : AdminUser.t).

Hypothesis Htoken :
  bearer_token (NextRequest.authorization request) = Some token.
Hypothesis Huser :
  Supabase.auth_getUser supabase token
  = Returns {| UserResponse.user := Some uid; UserResponse.error := None |}.
Hypothesis Hcurrent : List.filter (active_admin_of uid) rows = [currentAdmin].
Hypothesis Hsuper : AdminUser.role currentAdmin = super_admin.
Hypothesis Htarget : List.filter (has_id params_id) rows = [targetAdmin].

(** [DELETE] compares the target's [user_id] with the caller's identity
    before it deletes: on the caller's own record it answers 400 and the
    table is as it was, also for a super admin. *)
Lemma DELETE_own_record_rejected :
  AdminUser.user_id targetAdmin = uid ->
  DELETE supabase request params_id (Rows rows)
  = (failure "Cannot remove your own admin access" 400%Z, Rows rows).
Proof.
  intros Hself.
  unfold DELETE, try_catch, DELETE_try, bind, lift, ret, select_single.
  rewrite Htoken, Huser. simpl. rewrite Hcurrent. simpl.
  rewrite Hsuper. simpl. rewrite Htarget. simpl.
  rewrite Hself, String.eqb_refl. reflexivity.
Qed.

(** On another identity's record [DELETE] removes the rows with that
    id. *)
Lemma DELETE_other_record_removed :
  AdminUser.user_id targetAdmin <> uid ->
  snd (DELETE supabase request params_id (Rows rows))
  = Rows (List.filter (fun r => negb (has_id params_id r)) rows).
Proof.
  intros Hother.
  unfold DELETE, try_catch, DELETE_try, bind, lift, ret, select_single,
    delete_rows.
  rewrite Htoken, Huser. simpl. rewrite Hcurrent. simpl.
  rewrite Hsuper. simpl. rewrite Htarget. simpl.
  apply String.eqb_neq in Hother. rewrite Hother. reflexivity.
Qed.

End SelfProtection.

(** C3, at a super admin who sends [PATCH] with [status: 'suspended'] for
    the admin record of their own identity: no identity check is made, the
    answer is 200 and the caller's row is written with status suspended. *)
Theorem PATCH_own_record_written :
  let self :=
    {| AdminUser.id := "admin-1";
       AdminUser.user_id := "user-1";
       AdminUser.role := super_admin;
       AdminUser.custom_permissions := None;
       AdminUser.assigned_at := "2026-02-25T00:00:00Z";
       AdminUser.assigned_by := "user-0";
       AdminUser.status := suspended;
       AdminUser.created_at := "2026-02-25T00:00:00Z";
       AdminUser.updated_at := "2026-03-01T12:00:00Z" |} in
  Supabase.auth_getUser Sample.supabase "token-1"
  = Returns {| UserResponse.user := Some (AdminUser.user_id Sample.root);
               UserResponse.error := None |}
  /\ PATCH Sample.supabase (Sample.request "token-1" (Some "suspended"))
           (AdminUser.id Sample.root) Sample.table
     = ({| NextResponse.body :=
             {| ApiBody.success := true;
                ApiBody.error := None;
                ApiBody.message := Some "Admin role updated";
                ApiBody.status := None;
                ApiBody.data := Some self |};
           NextResponse.status := 200%Z |},
        Rows [self; Sample.mod_admin])
  /\ DELETE Sample.supabase (Sample.request "token-1" None)
            (AdminUser.id Sample.root) Sample.table
     = (failure "Cannot remove your own admin access" 400%Z, Sample.table).
Proof. vm_compute. repeat split. Qed.

(* ------------------------------------------------------------------ *)
(** ** The audit trigger                                               *)
(* ------------------------------------------------------------------ *)

(** C7, as stated, fails: an update that reactivates a suspended
    moderator and makes it support at once is not a status-only change,
    so the specified tag is [updated]; the trigger writes
    [reactivated]. *)
Lemma reactivation_with_role_change_not_updated :
  action_type (TG_UPDATE Sample.suspended_mod Sample.reactivated_as_support)
  = Audit.reactivated
  /\ ~ action_as_specified
         (TG_UPDATE Sample.suspended_mod Sample.reactivated_as_support)
         (action_type
            (TG_UPDATE Sample.suspended_mod Sample.reactivated_as_support)).
Proof.
  split; [reflexivity |].
  intros [_ [_ H]].
  assert (Hu : action_type
                 (TG_UPDATE Sample.suspended_mod
                            Sample.reactivated_as_support)
               = Audit.updated).
  { apply H. intros [Hrole _]. discriminate Hrole. }
  discriminate Hu.
Qed.

(** C7, amended: the tag is [created] on insert and [deleted] on delete;
    on update it is [reactivated] exactly when the status goes from
    suspended to active, [suspended] exactly when the status becomes
    suspended from another status (active or inactive), whether or not the
    role or the permissions change in the same update, and [updated] for
    every other update. *)
Theorem action_type_exact (ev : TriggerEvent) :
  match ev with
  | TG_INSERT _ => action_type ev = Audit.created
  | TG_DELETE _ => action_type ev = Audit.deleted
  | TG_UPDATE OLD NEW =>
      (action_type ev = Audit.reactivated
       <-> AdminUser.status OLD = suspended /\ AdminUser.status NEW = active)
      /\ (action_type ev = Audit.suspended
          <-> AdminUser.status NEW = suspended
              /\ AdminUser.status OLD <> suspended)
      /\ (action_type ev = Audit.updated
          <-> ~ (AdminUser.status OLD = suspended
                 /\ AdminUser.status NEW = active)
              /\ ~ (AdminUser.status NEW = suspended
                    /\ AdminUser.status OLD <> suspended))
      /\ action_type ev <> Audit.created
      /\ action_type ev <> Audit.deleted
  end.
Proof.
  destruct ev as [NEW | OLD NEW | OLD]; try reflexivity.
  unfold action_type.
  destruct (AdminUser.status OLD), (AdminUser.status NEW); simpl;
    destruct (AdminRole_beq (AdminUser.role NEW) (AdminUser.role OLD)); simpl;
    repeat split; intros; try discriminate; try tauto;
    try (intuition congruence).
Qed.

(** A status-only move between active and suspended is tagged as the
    specification says. *)
Lemma action_type_status_only (OLD NEW : AdminUser.t) :
  (AdminUser.status OLD = active -> AdminUser.status NEW = suspended ->
   action_type (TG_UPDATE OLD NEW) = Audit.suspended)
  /\ (AdminUser.status OLD = suspended -> AdminUser.status NEW = active ->
      action_type (TG_UPDATE OLD NEW) = Audit.reactivated)
  /\ (AdminUser.status OLD = AdminUser.status NEW ->
      action_type (TG_UPDATE OLD NEW) = Audit.updated).
Proof.
  unfold action_type.
  repeat split; intros;
    destruct (AdminUser.status OLD), (AdminUser.status NEW);
    try discriminate; simpl;
    destruct (AdminRole_beq (AdminUser.role NEW) (AdminUser.role OLD));
    reflexivity.
Qed.

(** The trigger writes a row only when the setting is on, the acting
    user is known to [users] and the event is not a delete; the row then
    carries the tag.  With the setting on, a delete always raises. *)
Lemma audit_role_change_inserted (audit_enabled auth_uid : option string)
    (users : list string) (ev : TriggerEvent) (row : RoleAudit.t) :
  audit_role_change audit_enabled auth_uid users ev = AuditInserted row ->
  row = audit_values auth_uid ev
  /\ RoleAudit.action row = action_type ev
  /\ (exists v, audit_enabled = Some v /\ v <> "false")
  /\ (exists uid, auth_uid = Some uid /\ In uid users)
  /\ forall OLD, ev <> TG_DELETE OLD.
Proof.
  unfold audit_role_change, audit_insert.
  destruct audit_enabled as [v |]; [| discriminate].
  destruct (String.eqb v "false") eqn:Ev; [discriminate |].
  destruct auth_uid as [uid |]; [| discriminate].
  destruct ev as [NEW | OLD NEW | OLD]; try discriminate;
    (destruct (existsb (String.eqb uid) users) eqn:Eu; [| discriminate]);
    intros E; injection E as <-;
    (split; [reflexivity |]); (split; [reflexivity |]);
    (split; [exists v; split; [reflexivity | now apply String.eqb_neq] |]);
    (split; [| discriminate]);
    apply existsb_exists in Eu; destruct Eu as [x [Hx Ex]];
    apply String.eqb_eq in Ex; subst x; exists uid; auto.
Qed.

Lemma audit_role_change_delete_raises (v : string)
    (auth_uid : option string) (users : list string) (OLD : AdminUser.t) :
  v <> "false" ->
  exists sqlstate,
    audit_role_change (Some v) auth_uid users (TG_DELETE OLD)
    = AuditRaises sqlstate.
Proof.
  intros Hv. unfold audit_role_change, audit_insert.
  apply String.eqb_neq in Hv. rewrite Hv.
  destruct auth_uid; eauto.
Qed.

(* ------------------------------------------------------------------ *)
(** ** More on the permission evaluator and the matrix                 *)
(* ------------------------------------------------------------------ *)

(** X1: [hasAllPermissions] holds exactly when every listed permission
    is in the context's permission list, [hasAnyPermission] exactly when
    some listed permission is. *)
Theorem permission_checks_membership
    (context : AuthorizationContext.t) (permissions : list PermissionKey) :
  (hasAllPermissions context permissions = true
   <-> forall p, In p permissions ->
                 In p (AuthorizationContext.permissions context))
  /\ (hasAnyPermission context permissions = true
      <-> exists p, In p permissions
                    /\ In p (AuthorizationContext.permissions context)).
Proof.
  unfold hasAllPermissions, hasAnyPermission. split.
  - rewrite forallb_forall. split; intros H p Hin.
    + apply hasPermission_In. now apply H.
    + apply hasPermission_In. now apply H.
  - rewrite existsb_exists. split; intros [p [Hin Hp]]; exists p; split;
      try assumption; now apply hasPermission_In.
Qed.

Lemma incl_support_moderator :
  incl (ROLE_PERMISSIONS support) (ROLE_PERMISSIONS moderator).
Proof.
  intros p Hin. simpl in Hin.
  repeat (destruct Hin as [<- | Hin]; [simpl; tauto |]).
  contradiction.
Qed.

(** X2: a context whose permission list contains another's passes every
    check the other passes: single, all and any. *)
Theorem permission_checks_monotone (c1 c2 : AuthorizationContext.t) :
  incl (AuthorizationContext.permissions c1)
       (AuthorizationContext.permissions c2) ->
  forall permissions,
    (forall p, hasPermission c1 p = true -> hasPermission c2 p = true)
    /\ (hasAllPermissions c1 permissions = true ->
        hasAllPermissions c2 permissions = true)
    /\ (hasAnyPermission c1 permissions = true ->
        hasAnyPermission c2 permissions = true).
Proof.
  intros Hincl permissions.
  assert (Hone : forall p, hasPermission c1 p = true ->
                           hasPermission c2 p = true).
  { intros p Hp. apply hasPermission_In. apply Hincl.
    now apply hasPermission_In. }
  split; [exact Hone |]. unfold hasAllPermissions, hasAnyPermission. split.
  - rewrite !forallb_forall. intros H p Hin. apply Hone. now apply H.
  - rewrite !existsb_exists. intros [p [Hin Hp]]. exists p. split; auto.
Qed.

Lemma permission_checks_monotone_witness :
  hasAllPermissions
    (createAuthorizationContext
       (Sample.admin "admin-2" "user-2" moderator active))
    [users_view; disputes_resolve] = true.
Proof.
  apply (@permission_checks_monotone
           (createAuthorizationContext
              (Sample.admin "admin-3" "user-3" support active))
           (createAuthorizationContext
              (Sample.admin "admin-2" "user-2" moderator active))
           incl_support_moderator).
  reflexivity.
Defined.

(** X3: for a record whose role is not custom, the permissions of its
    context are those of the matrix entry, whatever [custom_permissions]
    holds: a stored list cannot widen a built-in role. *)
Theorem builtin_role_ignores_custom_permissions (admin : AdminUser.t) :
  AdminUser.role admin <> custom ->
  AuthorizationContext.permissions (createAuthorizationContext admin)
  = ROLE_PERMISSIONS (AdminUser.role admin)
  /\ forall p,
       hasPermission (createAuthorizationContext admin) p = true
       <-> In p (ROLE_PERMISSIONS (AdminUser.role admin)).
Proof.
  intros Hrole.
  assert (E : AuthorizationContext.permissions
                (createAuthorizationContext admin)
              = ROLE_PERMISSIONS (AdminUser.role admin)).
  { simpl. unfold getRolePermissions.
    destruct (AdminUser.custom_permissions admin); [| reflexivity].
    destruct (AdminUser.role admin); try reflexivity. contradiction. }
  split; [exact E |].
  intros p. rewrite hasPermission_In, E. tauto.
Qed.

Lemma builtin_role_ignores_custom_permissions_witness :
  AuthorizationContext.permissions
    (createAuthorizationContext
       {| AdminUser.id := "admin-4";
          AdminUser.user_id := "user-4";
          AdminUser.role := analyst;
          AdminUser.custom_permissions := Some [users_delete];
          AdminUser.assigned_at := "";
          AdminUser.assigned_by := "user-1";
          AdminUser.status := active;
          AdminUser.created_at := "";
          AdminUser.updated_at := "" |})
  = ROLE_PERMISSIONS analyst.
Proof.
  refine (proj1 (@builtin_role_ignores_custom_permissions
                   {| AdminUser.id := "admin-4";
                      AdminUser.user_id := "user-4";
                      AdminUser.role := analyst;
                      AdminUser.custom_permissions := Some [users_delete];
                      AdminUser.assigned_at := "";
                      AdminUser.assigned_by := "user-1";
                      AdminUser.status := active;
                      AdminUser.created_at := "";
                      AdminUser.updated_at := "" |} _)).
  simpl. discriminate.
Defined.

(** X4: every matrix entry is contained in the super_admin entry and the
    support entry in the moderator entry; but rank does not order the
    entries: a moderator can manage an analyst and yet lacks
    [reports.export], which the analyst has, and custom outranks analyst
    with an empty entry. *)
Theorem matrix_containment :
  (forall r, incl (ROLE_PERMISSIONS r) (ROLE_PERMISSIONS super_admin))
  /\ incl (ROLE_PERMISSIONS support) (ROLE_PERMISSIONS moderator)
  /\ canManageRole moderator analyst = true
  /\ In reports_export (ROLE_PERMISSIONS analyst)
  /\ ~ In reports_export (ROLE_PERMISSIONS moderator)
  /\ canManageRole custom analyst = true
  /\ ROLE_PERMISSIONS custom = [].
Proof.
  split.
  { intros r p _. destruct p; simpl; tauto. }
  split; [exact incl_support_moderator |].
  split; [reflexivity |].
  split; [simpl; tauto |].
  split; [simpl; intuition discriminate |].
  split; reflexivity.
Qed.

(** Among the matrix entries only super_admin's has
    [users.assign_role]. *)
Lemma assign_role_only_super_admin (r : AdminRole) :
  In users_assign_role (ROLE_PERMISSIONS r) <-> r = super_admin.
Proof.
  destruct r; simpl; split; intros H; try discriminate; try tauto;
    intuition discriminate.
Qed.

(** X5: for the context built from an admin record, whatever its status,
    [validateRoleAssignment] holds exactly when the record is a
    super_admin, or it is a custom record whose stored list has
    [users.assign_role] and the target is analyst, the one role below
    custom. *)
Theorem validateRoleAssignment_built_context
    (admin : AdminUser.t) (target_role : AdminRole) :
  validateRoleAssignment (createAuthorizationContext admin) target_role
  = true
  <-> AdminUser.role admin = super_admin
      \/ (AdminUser.role admin = custom
          /\ target_role = analyst
          /\ exists cp,
               AdminUser.custom_permissions admin = Some cp
               /\ In users_assign_role cp).
Proof.
  unfold validateRoleAssignment.
  destruct (hasPermission (createAuthorizationContext admin)
                          users_assign_role) eqn:Hp; simpl.
  - apply hasPermission_In in Hp. simpl in Hp. unfold getRolePermissions in Hp.
    destruct (AdminUser.custom_permissions admin) as [cp |] eqn:Hcp.
    + destruct (AdminUser.role admin) eqn:Hr; simpl in Hp;
        try (exfalso; intuition discriminate).
      * split; [auto | reflexivity].
      * destruct target_role; simpl; split; intros H; try discriminate.
        -- destruct H as [H | [_ [H _]]]; discriminate.
        -- destruct H as [H | [_ [H _]]]; discriminate.
        -- destruct H as [H | [_ [H _]]]; discriminate.
        -- right. split; [reflexivity |]. split; [reflexivity |].
           exists cp. auto.
        -- reflexivity.
        -- destruct H as [H | [_ [H _]]]; discriminate.
    + apply assign_role_only_super_admin in Hp. rewrite Hp.
      split; [auto | reflexivity].
  - split; [discriminate |]. intros H. exfalso.
    assert (Hin : In users_assign_role
                     (AuthorizationContext.permissions
                        (createAuthorizationContext admin))).
    { simpl. unfold getRolePermissions.
      destruct H as [H | [H [_ [cp [Hcp Hin]]]]]; rewrite H.
      - destruct (AdminUser.custom_permissions admin); simpl; tauto.
      - rewrite Hcp. exact Hin. }
    apply hasPermission_In in Hin. congruence.
Qed.

(** X6: no role but super_admin can manage super_admin, and an
    assignment of super_admin is validated only for a context whose role
    is super_admin. *)
Theorem only_super_admin_manages_super_admin :
  (forall m, canManageRole m super_admin = true <-> m = super_admin)
  /\ (forall context,
        validateRoleAssignment context super_admin = true ->
        AuthorizationContext.role context = Some super_admin).
Proof.
  assert (H : forall m, canManageRole m super_admin = true <-> m = super_admin).
  { intros m. destruct m; simpl; split; intros E;
      try reflexivity; discriminate. }
  split; [exact H |].
  intros context. unfold validateRoleAssignment.
  destruct (hasPermission context users_assign_role); simpl;
    [| discriminate].
  destruct (AuthorizationContext.role context) as [r |]; [| discriminate].
  intros E. apply H in E. now subst.
Qed.

(** X7: [canManageRole] is transitive, and two roles manage each other
    only when both are super_admin. *)
Theorem canManageRole_order :
  (forall a b c,
     canManageRole a b = true -> canManageRole b c = true ->
     canManageRole a c = true)
  /\ (forall a b,
        canManageRole a b = true -> canManageRole b a = true ->
        a = super_admin /\ b = super_admin).
Proof.
  split.
  - intros a b c. destruct a, b, c; vm_compute; intros; congruence.
  - intros a b. destruct a, b; vm_compute; intros; try discriminate; auto.
Qed.

(* ------------------------------------------------------------------ *)
(** ** Audit messages and permission categories                        *)
(* ------------------------------------------------------------------ *)

(** X8: the message [formatAuditAction] gives for the row the trigger
    writes always names real role labels: the role the trigger leaves
    [NULL] (the old one on insert, the new one on delete) is one the
    message for that tag does not print.  An update tagged [updated]
    reads as a role change also when the role stayed the same. *)
Theorem formatAuditAction_of_trigger
    (auth_uid : option string) (ev : TriggerEvent) :
  let row := audit_values auth_uid ev in
  formatAuditAction (action_string (RoleAudit.action row))
                    (RoleAudit.old_role row) (RoleAudit.new_role row)
  = match ev with
    | TG_INSERT NEW =>
        "Assigned role: "
        ++ RoleMeta.label (ROLE_METADATA (AdminUser.role NEW))
    | TG_DELETE OLD =>
        "Removed from admin: was "
        ++ RoleMeta.label (ROLE_METADATA (AdminUser.role OLD))
    | TG_UPDATE OLD NEW =>
        match action_type ev with
        | Audit.suspended => "Suspended admin access"
        | Audit.reactivated => "Reactivated admin access"
        | _ =>
            "Role changed from "
            ++ RoleMeta.label (ROLE_METADATA (AdminUser.role OLD))
            ++ " to "
            ++ RoleMeta.label (ROLE_METADATA (AdminUser.role NEW))
        end
    end.
Proof.
  destruct ev as [NEW | OLD NEW | OLD]; simpl.
  - destruct (AdminUser.role NEW); reflexivity.
  - destruct (AdminUser.status OLD), (AdminUser.status NEW); simpl;
      destruct (AdminUser.role OLD), (AdminUser.role NEW); reflexivity.
  - destruct (AdminUser.role OLD); reflexivity.
Qed.

(** X9: role labels are distinct and none is missing, so the message of
    a [created] entry determines the role that was assigned. *)
Theorem formatAuditAction_created_injective
    (old1 old2 : option AdminRole) (r1 r2 : AdminRole) :
  formatAuditAction "created" old1 (Some r1)
  = formatAuditAction "created" old2 (Some r2)
  <-> r1 = r2.
Proof.
  split.
  - destruct r1, r2; vm_compute; intros E; try reflexivity; discriminate E.
  - intros ->. reflexivity.
Qed.

(** Reading a category after one [push]. *)
Lemma categories_get_push (categories : Categories) (k c : string)
    (p : PermissionKey) :
  nullish (categories_get (categories_push categories k p) c) []
  = (nullish (categories_get categories c) []
     ++ if String.eqb k c then [p] else [])%list.
Proof.
  induction categories as [| [k' v] rest IH]; simpl.
  - destruct (String.eqb k c); reflexivity.
  - destruct (String.eqb k' k) eqn:Ek; simpl.
    + apply String.eqb_eq in Ek. subst k'.
      destruct (String.eqb k c); simpl; rewrite ?app_nil_r; reflexivity.
    + destruct (String.eqb k' c) eqn:Ec; simpl.
      * apply String.eqb_eq in Ec. subst k'.
        rewrite String.eqb_sym, Ek, app_nil_r. reflexivity.
      * exact IH.
Qed.

(** A [push] keeps the keys distinct. *)
Lemma categories_push_keys (categories : Categories) (k : string)
    (p : PermissionKey) :
  NoDup (map fst categories) ->
  NoDup (map fst (categories_push categories k p))
  /\ forall c, In c (map fst (categories_push categories k p))
               <-> c = k \/ In c (map fst categories).
Proof.
  induction categories as [| [k' v] rest IH]; simpl; intros Hnd.
  - split.
    + constructor; [intros [] | constructor].
    + intros c. intuition.
  - inversion Hnd as [| x l Hnotin Hnd']; subst.
    destruct (String.eqb k' k) eqn:Ek; simpl.
    + apply String.eqb_eq in Ek. subst k'. split.
      * constructor; assumption.
      * intros c. intuition.
    + destruct (IH Hnd') as [IH1 IH2]. split.
      * constructor; [| exact IH1].
        intros Hin. apply IH2 in Hin. destruct Hin as [-> | Hin].
        -- rewrite String.eqb_refl in Ek. discriminate.
        -- contradiction.
      * intros c. rewrite IH2. intuition.
Qed.

Lemma group_by_category_get (permissions : list PermissionKey) :
  forall (categories : Categories) (c : string),
    nullish (categories_get (group_by_category permissions categories) c) []
    = (nullish (categories_get categories c) []
       ++ List.filter
            (fun p =>
               String.eqb (PermissionMeta.category (PERMISSION_METADATA p)) c)
            permissions)%list.
Proof.
  unfold group_by_category.
  induction permissions as [| p rest IH]; intros categories c; simpl.
  - symmetry. apply app_nil_r.
  - rewrite IH, categories_get_push.
    destruct (String.eqb (PermissionMeta.category (PERMISSION_METADATA p)) c);
      simpl.
    + rewrite <- app_assoc. reflexivity.
    + rewrite app_nil_r. reflexivity.
Qed.

Lemma group_by_category_keys (permissions : list PermissionKey) :
  forall categories : Categories,
    NoDup (map fst categories) ->
    NoDup (map fst (group_by_category permissions categories)).
Proof.
  unfold group_by_category.
  induction permissions as [| p rest IH]; intros categories Hnd; simpl.
  - exact Hnd.
  - apply IH. now apply categories_push_keys.
Qed.

(** X10: grouping any array of permissions puts under each category
    exactly the permissions of that category, in their order in the
    array, and no category twice; so [getPermissionsByCategory] lists
    every permission once, under its own category, in nine groups. *)
Theorem getPermissionsByCategory_partition :
  (forall permissions c,
     nullish (categories_get (group_by_category permissions []) c) []
     = List.filter
         (fun p =>
            String.eqb (PermissionMeta.category (PERMISSION_METADATA p)) c)
         permissions)
  /\ (forall permissions,
        NoDup (map fst (group_by_category permissions [])))
  /\ (forall p c,
        In p (nullish (categories_get getPermissionsByCategory c) [])
        <-> PermissionMeta.category (PERMISSION_METADATA p) = c)
  /\ map fst getPermissionsByCategory
     = [ "User Management"; "Listing Management"; "Disputes"; "Support";
         "Reports"; "Payments"; "Settings"; "Audit";
         "Roles & Permissions" ]
  /\ List.concat (map snd getPermissionsByCategory) = allPermissions.
Proof.
  split; [intros permissions c; apply group_by_category_get |].
  split; [intros permissions; apply group_by_category_keys; constructor |].
  split; [| split; reflexivity].
  intros p c. unfold getPermissionsByCategory.
  rewrite group_by_category_get. simpl categories_get. simpl nullish.
  rewrite app_nil_l, filter_In, String.eqb_eq.
  split; [tauto |]. intros H. split; [| exact H].
  destruct p; simpl; tauto.
Qed.

(** X11: the tag the trigger gives to the update [PATCH] makes of a row:
    an update that sets no status is tagged [updated]; it is tagged
    [suspended] exactly when it sets the status to suspended on a row that
    was not, and [reactivated] exactly when it sets active on a suspended
    row. *)
Theorem patch_audit_tag (now : string) (u : ToUpdate.t) (row : AdminUser.t) :
  let ev := TG_UPDATE row (apply_update now u row) in
  (ToUpdate.status u = None -> action_type ev = Audit.updated)
  /\ (action_type ev = Audit.suspended
      <-> ToUpdate.status u = Some suspended
          /\ AdminUser.status row <> suspended)
  /\ (action_type ev = Audit.reactivated
      <-> ToUpdate.status u = Some active
          /\ AdminUser.status row = suspended).
Proof.
  simpl. unfold action_type. simpl.
  destruct (ToUpdate.status u) as [[| |] |]; simpl;
    destruct (AdminUser.status row); simpl;
    destruct (AdminRole_beq
                (nullish (ToUpdate.role u) (AdminUser.role row))
                (AdminUser.role row)); simpl;
    repeat split; intros; try discriminate; try reflexivity;
    try (intuition congruence).
Qed.

(* ------------------------------------------------------------------ *)
(** ** More on authorizeRequest and its wrappers                       *)
(* ------------------------------------------------------------------ *)

(** Unfolds the monadic layers of the middleware and the handlers. *)
Ltac run_handler :=
  unfold requireAllPermissions, requireAnyPermission, requireAdminAccess,
    authorizeRequest, authorizeRequest_try,
    PATCH, PATCH_try, DELETE, DELETE_try, POST, POST_try,
    try_catch, bind, lift, ret, select_single.

(** A row kept by a filter is in the list and passes the test. *)
Lemma filter_singleton (A : Type) (f : A -> bool) (l : list A) (a : A)
    (rest : list A) :
  List.filter f l = a :: rest -> In a l /\ f a = true.
Proof.
  intros Hf. apply filter_In. rewrite Hf. left. reflexivity.
Qed.

(** The shape of a context-carrying answer of [authorizeRequest]. *)
Lemma authorizeRequest_context_inv (supabase : Supabase.t) (table : Table)
    (request : NextRequest.t) (rp : option RequiredPermission)
    (requireAll : bool) (c : AuthorizationContext.t) :
  AuthorizationResult.context
    (authorizeRequest supabase table request rp requireAll) = Some c ->
  exists token uid rows adminData,
    bearer_token (NextRequest.authorization request) = Some token
    /\ Supabase.auth_getUser supabase token
       = Returns {| UserResponse.user := Some uid;
                    UserResponse.error := None |}
    /\ table = Rows rows
    /\ List.filter (active_admin_of uid) rows = [adminData]
    /\ c = createAuthorizationContext adminData
    /\ AuthorizationResult.authorized
         (authorizeRequest supabase table request rp requireAll)
       = match rp with
         | None => true
         | Some r =>
             if requireAll
             then hasAllPermissions c (as_array r)
             else hasAnyPermission c (as_array r)
         end.
Proof.
  run_handler.
  destruct (bearer_token (NextRequest.authorization request)) as [token |];
    [| discriminate].
  destruct (Supabase.auth_getUser supabase token) as [[u e] |] eqn:Hu;
    simpl; [| discriminate].
  destruct e; [discriminate |].
  destruct u as [uid |]; [| discriminate].
  destruct table as [rows | msg |]; simpl; try discriminate.
  destruct (List.filter (active_admin_of uid) rows) as [| a [| b l]] eqn:Hf;
    simpl; try discriminate.
  unfold hasAllPermissions, hasAnyPermission.
  destruct rp as [r |].
  - destruct requireAll.
    + destruct (forallb (fun p => hasPermission (createAuthorizationContext a) p)
                        (as_array r)) eqn:Hc;
        simpl; intros E; injection E as <-;
        exists token, uid, rows, a; rewrite Hc; repeat split; auto.
    + destruct (existsb (fun p => hasPermission (createAuthorizationContext a) p)
                        (as_array r)) eqn:Hc;
        simpl; intros E; injection E as <-;
        exists token, uid, rows, a; rewrite Hc; repeat split; auto.
  - intros E; injection E as <-.
    exists token, uid, rows, a. repeat split; auto.
Qed.

(** A granted answer carries a context and no response; a denied answer
    carries a response. *)
Lemma authorizeRequest_granted_inv (supabase : Supabase.t) (table : Table)
    (request : NextRequest.t) (rp : option RequiredPermission)
    (requireAll : bool) :
  let r := authorizeRequest supabase table request rp requireAll in
  (AuthorizationResult.authorized r = true ->
   AuthorizationResult.response r = None
   /\ exists c, AuthorizationResult.context r = Some c)
  /\ (AuthorizationResult.authorized r = false ->
      AuthorizationResult.response r <> None).
Proof.
  run_handler.
  destruct (bearer_token (NextRequest.authorization request)) as [token |];
    [| simpl; split; [discriminate | intros _; discriminate]].
  destruct (Supabase.auth_getUser supabase token) as [[u e] |];
    simpl; [| split; [discriminate | intros _; discriminate]].
  destruct e; [split; [discriminate | intros _; discriminate] |].
  destruct u as [uid |]; [| split; [discriminate | intros _; discriminate]].
  destruct table as [rows | msg |]; simpl;
    try (split; [discriminate | intros _; discriminate]).
  destruct (List.filter (active_admin_of uid) rows) as [| a [| b l]];
    simpl; try (split; [discriminate | intros _; discriminate]).
  destruct rp as [r |].
  - match goal with
    | |- context [negb ?b] => destruct b
    end; simpl; split; intros E; try discriminate.
    split; [reflexivity | eauto].
  - simpl. split; intros E; try discriminate.
    split; [reflexivity | eauto].
Qed.

(** X12: when [authorizeRequest] grants, the caller's token resolved to
    a user who has an active row in [admin_users], the context returned is
    the one built from that row, and the required permissions are in it:
    all of them under AND, at least one under OR. *)
Theorem authorizeRequest_sound (supabase : Supabase.t) (table : Table)
    (request : NextRequest.t) (rp : option RequiredPermission)
    (requireAll : bool) :
  AuthorizationResult.authorized
    (authorizeRequest supabase table request rp requireAll) = true ->
  exists token uid rows adminData,
    bearer_token (NextRequest.authorization request) = Some token
    /\ Supabase.auth_getUser supabase token
       = Returns {| UserResponse.user := Some uid;
                    UserResponse.error := None |}
    /\ table = Rows rows
    /\ In adminData rows
    /\ AdminUser.user_id adminData = uid
    /\ AdminUser.status adminData = active
    /\ AuthorizationResult.context
         (authorizeRequest supabase table request rp requireAll)
       = Some (createAuthorizationContext adminData)
    /\ match rp with
       | None => True
       | Some r =>
           if requireAll
           then forall p, In p (as_array r) ->
                  In p (getRolePermissions
                          (AdminUser.role adminData)
                          (AdminUser.custom_permissions adminData))
           else exists p, In p (as_array r)
                  /\ In p (getRolePermissions
                             (AdminUser.role adminData)
                             (AdminUser.custom_permissions adminData))
       end.
Proof.
  intros Hauth.
  destruct (authorizeRequest_granted_inv supabase table request rp requireAll)
    as [Hg _].
  destruct (Hg Hauth) as [_ [c Hc]].
  destruct (authorizeRequest_context_inv _ _ _ _ _ Hc)
    as (token & uid & rows & a & Ht & Hu & Htab & Hf & -> & Hval).
  exists token, uid, rows, a.
  destruct (filter_singleton _ _ Hf) as [Hin Hact].
  unfold active_admin_of in Hact. apply andb_true_iff in Hact.
  destruct Hact as [Huid Hst].
  apply String.eqb_eq in Huid. apply AdminStatus_beq_eq in Hst.
  repeat (split; [assumption |]).
  rewrite Hauth in Hval.
  destruct rp as [r |]; [| exact I].
  unfold hasAllPermissions, hasAnyPermission in Hval.
  destruct requireAll; symmetry in Hval.
  - rewrite forallb_forall in Hval. intros p Hp.
    apply (hasPermission_In (createAuthorizationContext a) p).
    now apply Hval.
  - apply existsb_exists in Hval. destruct Hval as [p [Hp Hh]].
    exists p. split; [exact Hp |].
    now apply (hasPermission_In (createAuthorizationContext a) p).
Qed.

Lemma authorizeRequest_sound_witness :
  exists token uid rows adminData,
    bearer_token (NextRequest.authorization (Sample.request "token-2" None))
    = Some token
    /\ Supabase.auth_getUser Sample.supabase token
       = Returns {| UserResponse.user := Some uid;
                    UserResponse.error := None |}
    /\ Sample.table = Rows rows
    /\ In adminData rows
    /\ AdminUser.user_id adminData = uid
    /\ AdminUser.status adminData = active
    /\ AuthorizationResult.context
         (authorizeRequest Sample.supabase Sample.table
            (Sample.request "token-2" None)
            (Some (PermissionArray [users_view; roles_view])) true)
       = Some (createAuthorizationContext adminData)
    /\ forall p, In p [users_view; roles_view] ->
         In p (getRolePermissions (AdminUser.role adminData)
                                  (AdminUser.custom_permissions adminData)).
Proof.
  apply (@authorizeRequest_sound Sample.supabase Sample.table
           (Sample.request "token-2" None)
           (Some (PermissionArray [users_view; roles_view])) true).
  reflexivity.
Defined.

(** X13: [authorizeRequest] carries a response exactly when it denies:
    a grant has none and every denial has one. *)
Theorem authorizeRequest_response_iff_denied (supabase : Supabase.t)
    (table : Table) (request : NextRequest.t)
    (rp : option RequiredPermission) (requireAll : bool) :
  AuthorizationResult.response
    (authorizeRequest supabase table request rp requireAll) = None
  <-> AuthorizationResult.authorized
        (authorizeRequest supabase table request rp requireAll) = true.
Proof.
  destruct (authorizeRequest_granted_inv supabase table request rp requireAll)
    as [Hg Hd].
  split.
  - intros Hnone.
    destruct (AuthorizationResult.authorized
                (authorizeRequest supabase table request rp requireAll));
      [reflexivity |].
    exfalso. now apply Hd.
  - intros Hauth. now apply Hg.
Qed.

(** X14: a user whose rows in [admin_users] are all suspended or
    inactive is denied with the access-denied response and gets no
    context, whatever the role of those rows and whatever is required. *)
Theorem authorizeRequest_denies_inactive (supabase : Supabase.t)
    (rows : list AdminUser.t) (request : NextRequest.t)
    (rp : option RequiredPermission) (requireAll : bool)
    (token uid : string) :
  bearer_token (NextRequest.authorization request) = Some token ->
  Supabase.auth_getUser supabase token
  = Returns {| UserResponse.user := Some uid; UserResponse.error := None |} ->
  (forall a, In a rows -> AdminUser.user_id a = uid ->
             AdminUser.status a <> active) ->
  authorizeRequest supabase (Rows rows) request rp requireAll
  = {| AuthorizationResult.authorized := false;
       AuthorizationResult.context := None;
       AuthorizationResult.response := Some access_denied_response;
       AuthorizationResult.userId := Some uid;
       AuthorizationResult.adminId := None |}.
Proof.
  intros Ht Hu Hinactive. run_handler. rewrite Ht, Hu. simpl.
  destruct (List.filter (active_admin_of uid) rows) as [| a l] eqn:Hf;
    [reflexivity |].
  exfalso. destruct (filter_singleton _ _ Hf) as [Hin Hact].
  unfold active_admin_of in Hact. apply andb_true_iff in Hact.
  destruct Hact as [Huid Hst].
  apply String.eqb_eq in Huid. apply AdminStatus_beq_eq in Hst.
  now apply (Hinactive a).
Qed.

Lemma authorizeRequest_denies_inactive_witness :
  authorizeRequest Sample.supabase (Rows [Sample.suspended_root; Sample.mod_admin])
                   (Sample.request "token-1" None)
                   (Some (OnePermission users_view)) true
  = {| AuthorizationResult.authorized := false;
       AuthorizationResult.context := None;
       AuthorizationResult.response := Some access_denied_response;
       AuthorizationResult.userId := Some "user-1";
       AuthorizationResult.adminId := None |}.
Proof.
  apply (@authorizeRequest_denies_inactive Sample.supabase
           [Sample.suspended_root; Sample.mod_admin]
           (Sample.request "token-1" None)
           (Some (OnePermission users_view)) true "token-1" "user-1").
  - reflexivity.
  - reflexivity.
  - intros a [<- | [<- | []]] Huid.
    + simpl. discriminate.
    + simpl in Huid. discriminate.
Defined.

(** X15: when [requireSuperAdminAccess] grants, the context it returns
    is a super-admin context: built from an active row whose role is
    super_admin. *)
Theorem requireSuperAdminAccess_sound (supabase : Supabase.t)
    (table : Table) (request : NextRequest.t) :
  AuthorizationResult.authorized
    (requireSuperAdminAccess supabase table request) = true ->
  exists c,
    AuthorizationResult.context
      (requireSuperAdminAccess supabase table request) = Some c
    /\ AuthorizationContext.is_super_admin c = true
    /\ AuthorizationContext.is_admin c = true
    /\ AuthorizationContext.role c = Some super_admin.
Proof.
  unfold requireSuperAdminAccess.
  set (auth := authorizeRequest supabase table request None true).
  destruct (AuthorizationResult.authorized auth) eqn:Ha; simpl.
  - destruct (AuthorizationResult.context auth) as [c |] eqn:Hc; simpl.
    + destruct (AuthorizationContext.is_super_admin c) eqn:Hs; simpl;
        [| discriminate].
      intros _. exists c. split; [exact Hc |]. split; [exact Hs |].
      destruct (authorizeRequest_context_inv _ _ _ _ _ Hc)
        as (token & uid & rows & a & _ & _ & _ & _ & -> & _).
      simpl in Hs. apply andb_true_iff in Hs. destruct Hs as [Hr Hst].
      apply AdminRole_beq_eq in Hr. simpl. rewrite Hst, Hr. auto.
    + discriminate.
  - intros E. rewrite Ha in E. discriminate.
Qed.

Lemma requireSuperAdminAccess_sound_witness :
  exists c,
    AuthorizationResult.context
      (requireSuperAdminAccess Sample.supabase Sample.table
                               (Sample.request "token-1" None)) = Some c
    /\ AuthorizationContext.is_super_admin c = true
    /\ AuthorizationContext.is_admin c = true
    /\ AuthorizationContext.role c = Some super_admin.
Proof.
  apply (@requireSuperAdminAccess_sound Sample.supabase Sample.table
           (Sample.request "token-1" None)).
  reflexivity.
Defined.

(** X16: an active admin who is not a super admin is denied by
    [requireSuperAdminAccess] with [PERMISSION_DENIED] and a message that
    names no permission; the context stays in the answer. *)
Theorem requireSuperAdminAccess_denies_other_roles (supabase : Supabase.t)
    (rows : list AdminUser.t) (request : NextRequest.t)
    (token uid : string) (adminData : AdminUser.t) :
  bearer_token (NextRequest.authorization request) = Some token ->
  Supabase.auth_getUser supabase token
  = Returns {| UserResponse.user := Some uid; UserResponse.error := None |} ->
  List.filter (active_admin_of uid) rows = [adminData] ->
  AdminUser.role adminData <> super_admin ->
  requireSuperAdminAccess supabase (Rows rows) request
  = {| AuthorizationResult.authorized := false;
       AuthorizationResult.context :=
         Some (createAuthorizationContext adminData);
       AuthorizationResult.response :=
         Some {| NextResponse.body := permissionDeniedError None;
                 NextResponse.status := 403%Z |};
       AuthorizationResult.userId := Some uid;
       AuthorizationResult.adminId := Some (AdminUser.id adminData) |}.
Proof.
  intros Ht Hu Hf Hrole. unfold requireSuperAdminAccess.
  rewrite (@authorizeRequest_active_admin supabase request rows token uid
             adminData Ht Hu Hf). simpl.
  destruct (AdminRole_beq (AdminUser.role adminData) super_admin) eqn:E.
  - apply AdminRole_beq_eq in E. contradiction.
  - reflexivity.
Qed.

Lemma requireSuperAdminAccess_denies_other_roles_witness :
  AuthorizationResult.authorized
    (requireSuperAdminAccess Sample.supabase Sample.table
                             (Sample.request "token-2" None)) = false.
Proof.
  unfold Sample.table.
  rewrite (@requireSuperAdminAccess_denies_other_roles Sample.supabase
             [Sample.root; Sample.mod_admin] (Sample.request "token-2" None)
             "token-2" "user-2" Sample.mod_admin).
  - reflexivity.
  - reflexivity.
  - reflexivity.
  - reflexivity.
  - simpl. discriminate.
Defined.

(** X17: [requireAnyPermission] with an empty list never grants,
    whoever calls. *)
Theorem requireAnyPermission_empty_never_grants (supabase : Supabase.t)
    (table : Table) (request : NextRequest.t) :
  AuthorizationResult.authorized
    (requireAnyPermission supabase table request []) = false.
Proof.
  run_handler.
  destruct (bearer_token (NextRequest.authorization request)) as [token |];
    [| reflexivity].
  destruct (Supabase.auth_getUser supabase token) as [[u e] |];
    simpl; [| reflexivity].
  destruct e; [reflexivity |].
  destruct u as [uid |]; [| reflexivity].
  destruct table as [rows | msg |]; simpl; try reflexivity.
  destruct (List.filter (active_admin_of uid) rows) as [| a [| b l]];
    reflexivity.
Qed.

(* ------------------------------------------------------------------ *)
(** ** The guard components                                            *)
(* ------------------------------------------------------------------ *)

(** X18: the guard in the page and the middleware on the server decide
    alike: given the context an [authorizeRequest] call returned,
    [PermissionGuard] with the same permission and [requireAll] renders
    its children exactly when that call granted. *)
Theorem PermissionGuard_agrees_with_authorizeRequest
    (ReactNode : Type) (supabase : Supabase.t) (table : Table)
    (request : NextRequest.t) (rp : RequiredPermission) (requireAll : bool)
    (children fallback : ReactNode) (c : AuthorizationContext.t) :
  AuthorizationResult.context
    (authorizeRequest supabase table request (Some rp) requireAll) = Some c ->
  PermissionGuard (Some c) (Some rp) requireAll children fallback
  = if AuthorizationResult.authorized
         (authorizeRequest supabase table request (Some rp) requireAll)
    then children else fallback.
Proof.
  intros Hc.
  destruct (authorizeRequest_context_inv _ _ _ _ _ Hc)
    as (token & uid & rows & a & _ & _ & _ & _ & _ & Hval).
  rewrite Hval. unfold PermissionGuard, hasAllPermissions, hasAnyPermission.
  destruct requireAll; reflexivity.
Qed.

Lemma PermissionGuard_agrees_with_authorizeRequest_witness :
  PermissionGuard
    (Some (createAuthorizationContext Sample.mod_admin))
    (Some (OnePermission users_delete)) true "button" "nothing"
  = if AuthorizationResult.authorized
         (authorizeRequest Sample.supabase Sample.table
            (Sample.request "token-2" None)
            (Some (OnePermission users_delete)) true)
    then "button" else "nothing".
Proof.
  apply (@PermissionGuard_agrees_with_authorizeRequest string
           Sample.supabase Sample.table (Sample.request "token-2" None)
           (OnePermission users_delete) true "button" "nothing"
           (createAuthorizationContext Sample.mod_admin)).
  reflexivity.
Defined.

(** X19: for the context of a record that is not active, [AdminGuard]
    and [SuperAdminGuard] render the fallback, while [PermissionGuard]
    still renders the children for every permission of the record's role
    and [RoleGuard] for the record's role: these two do not look at the
    status. *)
Theorem guards_on_inactive_record (ReactNode : Type) (admin : AdminUser.t)
    (children fallback : ReactNode) :
  AdminUser.status admin <> active ->
  let context := Some (createAuthorizationContext admin) in
  AdminGuard context children fallback = fallback
  /\ SuperAdminGuard context children fallback = fallback
  /\ (forall p requireAll,
        In p (getRolePermissions (AdminUser.role admin)
                                 (AdminUser.custom_permissions admin)) ->
        PermissionGuard context (Some (OnePermission p)) requireAll
                        children fallback = children)
  /\ RoleGuard context (OneRole (AdminUser.role admin)) children fallback
     = children.
Proof.
  intros Hst. simpl.
  rewrite (AdminStatus_beq_active_false Hst), andb_false_r.
  split; [reflexivity |]. split; [reflexivity |]. split.
  - intros p requireAll Hin.
    assert (Hp : hasPermission (createAuthorizationContext admin) p = true)
      by (apply hasPermission_In; exact Hin).
    destruct requireAll; simpl; rewrite Hp; reflexivity.
  - assert (E : AdminRole_beq (AdminUser.role admin) (AdminUser.role admin)
                = true) by now apply AdminRole_beq_eq.
    rewrite E. reflexivity.
Qed.

Lemma guards_on_inactive_record_witness :
  AdminGuard (Some (createAuthorizationContext Sample.suspended_root))
             "panel" "nothing" = "nothing"
  /\ PermissionGuard (Some (createAuthorizationContext Sample.suspended_root))
                     (Some (OnePermission users_delete)) true
                     "panel" "nothing" = "panel".
Proof.
  assert (H : AdminUser.status Sample.suspended_root <> active)
    by (simpl; discriminate).
  destruct (@guards_on_inactive_record string Sample.suspended_root
              "panel" "nothing" H) as [Ha [_ [Hp _]]].
  split; [exact Ha |].
  apply Hp. simpl. tauto.
Defined.

(** X20: the wrapper, the hook and the guard decide alike: the wrapper
    puts the disabled class exactly when [PermissionGuard] would render
    the fallback, and [has], [hasAll] and [hasAny] of [usePermission]
    answer what the guard does for that permission or list. *)
Theorem wrapper_hook_guard_agree (context : option AuthorizationContext.t)
    (permission : option RequiredPermission) (requireAll : bool)
    (disabledClassName : string) :
  disabledClassName <> "" ->
  (ConditionalWrapper context permission requireAll disabledClassName
   = disabledClassName
   <-> PermissionGuard context permission requireAll true false = false)
  /\ (forall p,
        UsePermission.has (usePermission context) p
        = PermissionGuard context (Some (OnePermission p)) requireAll
                          true false)
  /\ (forall ps,
        UsePermission.hasAll (usePermission context) ps
        = PermissionGuard context (Some (PermissionArray ps)) true
                          true false)
  /\ (forall ps,
        UsePermission.hasAny (usePermission context) ps
        = PermissionGuard context (Some (PermissionArray ps)) false
                          true false).
Proof.
  intros Hcls. split.
  - unfold ConditionalWrapper, PermissionGuard.
    destruct permission as [rp |], context as [c |]; simpl;
      try (split; [reflexivity | reflexivity]);
      try (split; [intros E; now symmetry in E | discriminate]).
    match goal with
    | |- context [negb ?b] => destruct b
    end; simpl.
    + split; [intros E; now symmetry in E | discriminate].
    + split; reflexivity.
  - unfold PermissionGuard. destruct context as [c |]; simpl.
    + split.
      * intros p. destruct requireAll; simpl.
        -- rewrite andb_true_r. destruct (hasPermission c p); reflexivity.
        -- rewrite orb_false_r. destruct (hasPermission c p); reflexivity.
      * split; intros ps.
        -- destruct (forallb (fun p => hasPermission c p) ps); reflexivity.
        -- destruct (existsb (fun p => hasPermission c p) ps); reflexivity.
    + repeat split.
Qed.

Lemma wrapper_hook_guard_agree_witness :
  ConditionalWrapper (Some (createAuthorizationContext Sample.mod_admin))
                     (Some (OnePermission users_delete)) true "opacity-50"
  = "opacity-50"
  <-> PermissionGuard (Some (createAuthorizationContext Sample.mod_admin))
                      (Some (OnePermission users_delete)) true true false
      = false.
Proof.
  refine (proj1 (@wrapper_hook_guard_agree
                   (Some (createAuthorizationContext Sample.mod_admin))
                   (Some (OnePermission users_delete)) true "opacity-50" _)).
  discriminate.
Defined.

(* ------------------------------------------------------------------ *)
(** ** The handlers as operations on the table                         *)
(* ------------------------------------------------------------------ *)

(** The row-wise map an update with [.eq('id', id)] applies. *)
Lemma update_rows_Forall2 (now : string) (u : ToUpdate.t) (id : string)
    (rows : list AdminUser.t) (R : AdminUser.t -> AdminUser.t -> Prop) :
  (forall r, R r r) ->
  (forall r, has_id id r = true -> R r (apply_update now u r)) ->
  Forall2 R rows
    (map (fun r => if has_id id r then apply_update now u r else r) rows).
Proof.
  intros Hrefl Hupd. induction rows as [| r rest IH]; simpl.
  - constructor.
  - constructor; [| exact IH].
    destruct (has_id id r) eqn:E; auto.
Qed.

Lemma Forall2_refl (A : Type) (R : A -> A -> Prop) (l : list A) :
  (forall a, R a a) -> Forall2 R l l.
Proof. intros H. induction l; constructor; auto. Qed.

(** An update keeps the [id], so it commutes with [.eq('id', id)]. *)
Lemma filter_has_id_update (now : string) (u : ToUpdate.t) (id : string)
    (rows : list AdminUser.t) :
  List.filter (has_id id)
    (map (fun r => if has_id id r then apply_update now u r else r) rows)
  = map (apply_update now u) (List.filter (has_id id) rows).
Proof.
  induction rows as [| r rest IH]; simpl; [reflexivity |].
  destruct (has_id id r) eqn:E; simpl.
  - unfold has_id in *. simpl. rewrite E. simpl. now rewrite IH.
  - rewrite E. exact IH.
Qed.

(** What [PATCH] can do to a table of rows: nothing, with an answer other
    than 200, or one update of the row with the given id that the check
    constraint accepts, answered with 200; the update is the one the
    request body spells out. *)
Lemma PATCH_write_cases (supabase : Supabase.t) (request : NextRequest.t)
    (params_id : string) (rows : list AdminUser.t) :
  (snd (PATCH supabase request params_id (Rows rows)) = Rows rows
   /\ NextResponse.status
        (fst (PATCH supabase request params_id (Rows rows))) <> 200%Z)
  \/ exists u body target,
       let rows' :=
         map (fun r =>
                if has_id params_id r
                then apply_update (Supabase.now supabase) u r else r)
             rows in
       snd (PATCH supabase request params_id (Rows rows)) = Rows rows'
       /\ NextResponse.status
            (fst (PATCH supabase request params_id (Rows rows))) = 200%Z
       /\ admin_users_role_check
            (apply_update (Supabase.now supabase) u target) = true
       /\ List.filter (has_id params_id) rows = [target]
       /\ NextRequest.json request = Returns body
       /\ ToUpdate.role u
          = match truthy (PatchBody.role body) with
            | Some s => parse_role s
            | None => None
            end
       /\ ToUpdate.custom_permissions u
          = match PatchBody.custom_permissions body with
            | Undefined => None
            | Null => Some None
            | Value ps => Some (Some ps)
            end.
Proof.
  run_handler.
  destruct (bearer_token (NextRequest.authorization request)) as [token |];
    [| left; split; [reflexivity | discriminate]].
  destruct (Supabase.auth_getUser supabase token) as [[u e] |]; simpl;
    [| left; split; [reflexivity | discriminate]].
  destruct u as [uid |]; [| left; split; [reflexivity | discriminate]].
  destruct (not_super_admin
              (Single.data (single (List.filter (active_admin_of uid) rows))));
    [left; split; [reflexivity | discriminate] |].
  destruct (List.filter (has_id params_id) rows) as [| t [| t' l]] eqn:Ht;
    simpl; try (left; split; [reflexivity | discriminate]).
  unfold PATCH_update, bind, lift, ret.
  destruct (NextRequest.json request) as [body |];
    [| left; split; [reflexivity | discriminate]].
  destruct (truthy (PatchBody.role body)) as [s |] eqn:Etr;
    [destruct (parse_role s) as [r |] eqn:Epr;
     [| left; split; [reflexivity | discriminate]] |];
    (destruct (truthy (PatchBody.status body)) as [s' |];
     [destruct (parse_status s') as [st |];
      [| left; split; [reflexivity | discriminate]] |]);
    unfold update_single;
    match goal with
    | |- context [is_empty_update ?x] =>
        destruct (is_empty_update x);
        [left; split; [reflexivity | discriminate] |];
        rewrite filter_has_id_update, Ht; simpl;
        match goal with
        | |- context [admin_users_role_check ?row] =>
            destruct (admin_users_role_check row) eqn:Hc; simpl;
            [| left; split; [reflexivity | discriminate]]
        end;
        right; exists x, body, t; simpl;
        rewrite ?filter_has_id_update, ?Ht; simpl; rewrite ?Hc; simpl;
        repeat split; try assumption; try reflexivity;
        rewrite Etr; auto
    end.
Qed.

(** The same, without the request body. *)
Lemma PATCH_table_cases (supabase : Supabase.t) (request : NextRequest.t)
    (params_id : string) (rows : list AdminUser.t) :
  snd (PATCH supabase request params_id (Rows rows)) = Rows rows
  \/ exists u,
       let rows' :=
         map (fun r =>
                if has_id params_id r
                then apply_update (Supabase.now supabase) u r else r)
             rows in
       snd (PATCH supabase request params_id (Rows rows)) = Rows rows'
       /\ NextResponse.status
            (fst (PATCH supabase request params_id (Rows rows))) = 200%Z
       /\ forallb admin_users_role_check
                  (List.filter (has_id params_id) rows') = true.
Proof.
  destruct (PATCH_write_cases supabase request params_id rows)
    as [[H _] | (u & body & t & H & Hst & Hc & Ht & _)].
  - left. exact H.
  - right. exists u. simpl in *. split; [exact H |]. split; [exact Hst |].
    rewrite filter_has_id_update, Ht. simpl. rewrite Hc. reflexivity.
Qed.

(** What [DELETE] can do to a table of rows: nothing, or remove the rows
    with the given id, answered with 200, when the one row with that id
    belongs to another identity than the caller's. *)
Lemma DELETE_table_cases (supabase : Supabase.t) (request : NextRequest.t)
    (params_id : string) (rows : list AdminUser.t) :
  snd (DELETE supabase request params_id (Rows rows)) = Rows rows
  \/ (snd (DELETE supabase request params_id (Rows rows))
      = Rows (List.filter (fun r => negb (has_id params_id r)) rows)
      /\ NextResponse.status
           (fst (DELETE supabase request params_id (Rows rows))) = 200%Z
      /\ exists token resp uid target,
           bearer_token (NextRequest.authorization request) = Some token
           /\ Supabase.auth_getUser supabase token = Returns resp
           /\ UserResponse.user resp = Some uid
           /\ List.filter (has_id params_id) rows = [target]
           /\ AdminUser.user_id target <> uid).
Proof.
  run_handler.
  destruct (bearer_token (NextRequest.authorization request)) as [token |];
    [| left; reflexivity].
  destruct (Supabase.auth_getUser supabase token) as [[u e] |] eqn:Hu; simpl;
    [| left; reflexivity].
  destruct u as [uid |]; [| left; reflexivity].
  destruct (not_super_admin
              (Single.data (single (List.filter (active_admin_of uid) rows))));
    [left; reflexivity |].
  destruct (List.filter (has_id params_id) rows) as [| t [| t' l]] eqn:Ht;
    simpl; try (left; reflexivity).
  destruct (String.eqb (AdminUser.user_id t) uid) eqn:Eself;
    [left; reflexivity |].
  right. simpl. split; [reflexivity |]. split; [reflexivity |].
  exists token, {| UserResponse.user := Some uid; UserResponse.error := e |},
    uid, t.
  repeat split; try assumption. now apply String.eqb_neq.
Qed.

(** What [POST] can do to a table of rows: nothing, with an answer
    other than 201, or append one row that breaks no constraint, answered
    with 201. *)
Lemma POST_table_cases (supabase : Supabase.t) (pg : Postgres.t)
    (request : PostRequest.t) (rows : list AdminUser.t) :
  (snd (POST supabase pg request (Rows rows)) = Rows rows
   /\ NextResponse.status (fst (POST supabase pg request (Rows rows)))
      <> 201%Z)
  \/ exists token uid body user_id role r,
       let cp :=
         match r, PostBody.custom_permissions body with
         | custom, Value ps => Some ps
         | _, _ => None
         end in
       let row := new_admin_row supabase pg user_id r cp uid in
       snd (POST supabase pg request (Rows rows)) = Rows (rows ++ [row])
       /\ NextResponse.status (fst (POST supabase pg request (Rows rows)))
          = 201%Z
       /\ ApiBody.data
            (NextResponse.body (fst (POST supabase pg request (Rows rows))))
          = Some row
       /\ insert_violation pg rows row = None
       /\ bearer_token (PostRequest.authorization request) = Some token
       /\ Supabase.auth_getUser supabase token
          = Returns {| UserResponse.user := Some uid;
                       UserResponse.error := None |}
       /\ PostRequest.json request = Returns body
       /\ truthy (PostBody.user_id body) = Some user_id
       /\ truthy (PostBody.role body) = Some role
       /\ parse_role role = Some r.
Proof.
  run_handler.
  destruct (bearer_token (PostRequest.authorization request)) as [token |];
    [| left; split; [reflexivity | discriminate]].
  destruct (Supabase.auth_getUser supabase token) as [[u e] |] eqn:Hu; simpl;
    [| left; split; [reflexivity | discriminate]].
  destruct e; [left; split; [reflexivity | discriminate] |].
  destruct u as [uid |]; [| left; split; [reflexivity | discriminate]].
  destruct (not_super_admin
              (Single.data (single (List.filter (active_admin_of uid) rows))));
    [left; split; [reflexivity | discriminate] |].
  unfold POST_assign, bind, lift, ret, select_user, select_single.
  destruct (PostRequest.json request) as [body |];
    [| left; split; [reflexivity | discriminate]].
  destruct (truthy (PostBody.user_id body)) as [user_id |] eqn:Eu;
    [| left; split; [reflexivity | discriminate]].
  destruct (truthy (PostBody.role body)) as [role |] eqn:Er;
    [| left; split; [reflexivity | discriminate]].
  destruct (parse_role role) as [r |] eqn:Ep;
    [| left; split; [reflexivity | discriminate]].
  destruct (List.filter (String.eqb user_id) (Postgres.users pg))
    as [| x [| y l]]; try (left; split; [reflexivity | discriminate]).
  destruct (Single.data (single (List.filter (has_user_id user_id) rows)));
    [left; split; [reflexivity | discriminate] |].
  unfold insert_single.
  match goal with
  | |- context [insert_violation pg rows ?row] =>
      destruct (insert_violation pg rows row) eqn:Hv;
      [left; split; [reflexivity | discriminate] |]
  end.
  right. simpl.
  exists token, uid, body, user_id, role, r.
  simpl. rewrite Hv. simpl. repeat split; assumption.
Qed.

(** On a store that fails [POST] does not answer 201. *)
Lemma POST_failing_store_status (supabase : Supabase.t) (pg : Postgres.t)
    (post : PostRequest.t) (table : Table) :
  (forall rows, table <> Rows rows) ->
  NextResponse.status (fst (POST supabase pg post table)) <> 201%Z.
Proof.
  intros Hfail.
  destruct table as [rows | msg |]; [now contradiction (Hfail rows) | |];
    run_handler;
    (destruct (bearer_token (PostRequest.authorization post));
     [| discriminate]);
    destruct (Supabase.auth_getUser supabase s) as [[[uid |] [e |]] |];
    discriminate.
Qed.

(** On a store that fails no handler writes. *)
Lemma handlers_failing_store (supabase : Supabase.t) (pg : Postgres.t)
    (request : NextRequest.t) (post : PostRequest.t) (params_id : string)
    (table : Table) :
  (forall rows, table <> Rows rows) ->
  snd (PATCH supabase request params_id table) = table
  /\ snd (DELETE supabase request params_id table) = table
  /\ snd (POST supabase pg post table) = table.
Proof.
  intros Hfail.
  destruct table as [rows | msg |]; [now contradiction (Hfail rows) | |].
  - run_handler. repeat split.
    + destruct (bearer_token (NextRequest.authorization request));
        [| reflexivity].
      destruct (Supabase.auth_getUser supabase s) as [[[uid |] e] |];
        reflexivity.
    + destruct (bearer_token (NextRequest.authorization request));
        [| reflexivity].
      destruct (Supabase.auth_getUser supabase s) as [[[uid |] e] |];
        reflexivity.
    + destruct (bearer_token (PostRequest.authorization post));
        [| reflexivity].
      destruct (Supabase.auth_getUser supabase s) as [[[uid |] [e |]] |];
        reflexivity.
  - run_handler. repeat split.
    + destruct (bearer_token (NextRequest.authorization request));
        [| reflexivity].
      destruct (Supabase.auth_getUser supabase s) as [[[uid |] e] |];
        reflexivity.
    + destruct (bearer_token (NextRequest.authorization request));
        [| reflexivity].
      destruct (Supabase.auth_getUser supabase s) as [[[uid |] e] |];
        reflexivity.
    + destruct (bearer_token (PostRequest.authorization post));
        [| reflexivity].
      destruct (Supabase.auth_getUser supabase s) as [[[uid |] [e |]] |];
        reflexivity.
Qed.

Lemma NoDup_map_filter (A B : Type) (g : A -> B) (p : A -> bool)
    (l : list A) :
  NoDup (map g l) -> NoDup (map g (List.filter p l)).
Proof.
  induction l as [| a l IH]; simpl; intros Hnd; [constructor |].
  inversion Hnd as [| x xs Hnotin Hnd']; subst.
  destruct (p a); simpl; [| now apply IH].
  constructor; [| now apply IH].
  intros Hin. apply Hnotin. apply in_map_iff in Hin.
  destruct Hin as [b [Eb Hb]]. apply filter_In in Hb.
  apply in_map_iff. exists b. tauto.
Qed.

Lemma existsb_string_false (g : AdminUser.t -> string) (k : string)
    (rows : list AdminUser.t) :
  existsb (fun r => String.eqb (g r) k) rows = false ->
  ~ In k (map g rows).
Proof.
  intros Hex Hin. apply in_map_iff in Hin. destruct Hin as [r [Er Hr]].
  assert (Ht : existsb (fun r => String.eqb (g r) k) rows = true).
  { apply existsb_exists. exists r. split; [exact Hr |].
    now apply String.eqb_eq. }
  congruence.
Qed.

Lemma NoDup_snoc (A : Type) (l : list A) (a : A) :
  NoDup l -> ~ In a l -> NoDup (l ++ [a]).
Proof.
  intros Hnd Hnotin. induction l as [| b l IH]; simpl.
  - constructor; [intros [] | constructor].
  - inversion Hnd as [| x xs Hb Hnd']; subst.
    constructor.
    + intros Hin. apply in_app_or in Hin. destruct Hin as [Hin | [-> | []]].
      * contradiction.
      * apply Hnotin. left. reflexivity.
    + apply IH; [exact Hnd' |]. intros Hin. apply Hnotin. now right.
Qed.

(** The violation test of an insert, read back. *)
Lemma insert_violation_None (pg : Postgres.t) (rows : list AdminUser.t)
    (row : AdminUser.t) :
  insert_violation pg rows row = None ->
  admin_users_role_check row = true
  /\ ~ In (AdminUser.id row) (map AdminUser.id rows)
  /\ ~ In (AdminUser.user_id row) (map AdminUser.user_id rows)
  /\ In (AdminUser.user_id row) (Postgres.users pg)
  /\ In (AdminUser.assigned_by row) (Postgres.users pg).
Proof.
  unfold insert_violation.
  destruct (admin_users_role_check row); simpl; [| discriminate].
  destruct (existsb (has_id (AdminUser.id row)) rows) eqn:E1;
    [discriminate |].
  destruct (existsb (has_user_id (AdminUser.user_id row)) rows) eqn:E2;
    [discriminate |].
  destruct (existsb (String.eqb (AdminUser.user_id row)) (Postgres.users pg))
    eqn:E3; simpl; [| discriminate].
  destruct (existsb (String.eqb (AdminUser.assigned_by row))
                    (Postgres.users pg)) eqn:E4; simpl; [| discriminate].
  intros _. split; [reflexivity |].
  split; [exact (existsb_string_false AdminUser.id _ _ E1) |].
  split; [exact (existsb_string_false AdminUser.user_id _ _ E2) |].
  apply existsb_exists in E3. destruct E3 as [x [Hx Ex]].
  apply String.eqb_eq in Ex. subst x.
  apply existsb_exists in E4. destruct E4 as [y [Hy Ey]].
  apply String.eqb_eq in Ey. subst y. auto.
Qed.



(** X21: a request that is not answered with success leaves the table
    as it was: [PATCH] and [DELETE] write only when they answer 200,
    [POST] only when it answers 201. *)
Theorem failed_requests_change_nothing (supabase : Supabase.t)
    (pg : Postgres.t) (request : NextRequest.t) (post : PostRequest.t)
    (params_id : string) (table : Table) :
  (NextResponse.status (fst (PATCH supabase request params_id table))
   <> 200%Z ->
   snd (PATCH supabase request params_id table) = table)
  /\ (NextResponse.status (fst (DELETE supabase request params_id table))
      <> 200%Z ->
      snd (DELETE supabase request params_id table) = table)
  /\ (NextResponse.status (fst (POST supabase pg post table)) <> 201%Z ->
      snd (POST supabase pg post table) = table).
Proof.
  destruct table as [rows | msg |].
  - split; [| split]; intros Hst.
    + destruct (PATCH_table_cases supabase request params_id rows)
        as [H | [u [_ [H _]]]]; [exact H | contradiction].
    + destruct (DELETE_table_cases supabase request params_id rows)
        as [H | [_ [H _]]]; [exact H | contradiction].
    + destruct (POST_table_cases supabase pg post rows)
        as [[H _] | (token & uid & body & user_id & role & r & _ & H & _)];
        [exact H | contradiction].
  - destruct (@handlers_failing_store supabase pg request post params_id
                (QueryError msg)) as [Hp [Hd Ho]]; [discriminate |].
    repeat split; intros _; assumption.
  - destruct (@handlers_failing_store supabase pg request post params_id
                QueryThrows) as [Hp [Hd Ho]]; [discriminate |].
    repeat split; intros _; assumption.
Qed.

(** Closes a branch in which the handler returns the table it got. *)
Ltac unchanged :=
  let H := fresh "H" in
  simpl; intros H; exfalso; apply H; reflexivity.

(** The gate all three handlers share. *)
Lemma super_admin_gate (supabase : Supabase.t) (authorization : option string)
    (rows : list AdminUser.t) (token uid : string) (e : option string)
    (a : AdminUser.t) :
  bearer_token authorization = Some token ->
  Supabase.auth_getUser supabase token
  = Returns {| UserResponse.user := Some uid; UserResponse.error := e |} ->
  List.filter (active_admin_of uid) rows = [a] ->
  not_super_admin (Some a) = false ->
  active_super_admin_caller supabase authorization (Rows rows).
Proof.
  intros Ht Hu Hf Hs.
  exists token, {| UserResponse.user := Some uid; UserResponse.error := e |},
    uid, rows, a.
  destruct (filter_singleton _ _ Hf) as [Hin Hact].
  unfold active_admin_of in Hact. apply andb_true_iff in Hact.
  destruct Hact as [Huid Hst].
  apply String.eqb_eq in Huid. apply AdminStatus_beq_eq in Hst.
  simpl in Hs. apply negb_false_iff in Hs. apply AdminRole_beq_eq in Hs.
  repeat split; assumption.
Qed.

(** X22: whenever [PATCH], [DELETE] or [POST] changes the table, the
    caller is an active super admin of it; the handlers test the role
    itself, not a permission or the hierarchy guard. *)
Theorem writes_require_active_super_admin (supabase : Supabase.t)
    (pg : Postgres.t) (request : NextRequest.t) (post : PostRequest.t)
    (params_id : string) (table : Table) :
  (snd (PATCH supabase request params_id table) <> table ->
   active_super_admin_caller supabase (NextRequest.authorization request)
                             table)
  /\ (snd (DELETE supabase request params_id table) <> table ->
      active_super_admin_caller supabase (NextRequest.authorization request)
                                table)
  /\ (snd (POST supabase pg post table) <> table ->
      active_super_admin_caller supabase (PostRequest.authorization post)
                                table).
Proof.
  destruct table as [rows | msg |].
  2: { destruct (@handlers_failing_store supabase pg request post params_id
                   (QueryError msg)) as [Hp [Hd Ho]]; [discriminate |].
       repeat split; intros H; contradiction. }
  2: { destruct (@handlers_failing_store supabase pg request post params_id
                   QueryThrows) as [Hp [Hd Ho]]; [discriminate |].
       repeat split; intros H; contradiction. }
  split; [| split].
  - run_handler.
    destruct (bearer_token (NextRequest.authorization request))
      as [token |] eqn:Ht; [| unchanged].
    destruct (Supabase.auth_getUser supabase token) as [[u e] |] eqn:Hu;
      simpl; [| unchanged].
    destruct u as [uid |]; [| unchanged].
    destruct (List.filter (active_admin_of uid) rows) as [| a [| b l]] eqn:Hf;
      try unchanged.
    destruct (not_super_admin (Single.data (single [a]))) eqn:Hs;
      [unchanged |].
    intros _. eapply super_admin_gate; [exact Ht | exact Hu | exact Hf | exact Hs].
  - run_handler.
    destruct (bearer_token (NextRequest.authorization request))
      as [token |] eqn:Ht; [| unchanged].
    destruct (Supabase.auth_getUser supabase token) as [[u e] |] eqn:Hu;
      simpl; [| unchanged].
    destruct u as [uid |]; [| unchanged].
    destruct (List.filter (active_admin_of uid) rows) as [| a [| b l]] eqn:Hf;
      try unchanged.
    destruct (not_super_admin (Single.data (single [a]))) eqn:Hs;
      [unchanged |].
    intros _. eapply super_admin_gate; [exact Ht | exact Hu | exact Hf | exact Hs].
  - run_handler.
    destruct (bearer_token (PostRequest.authorization post))
      as [token |] eqn:Ht; [| unchanged].
    destruct (Supabase.auth_getUser supabase token) as [[u e] |] eqn:Hu;
      simpl; [| unchanged].
    destruct e; [unchanged |].
    destruct u as [uid |]; [| unchanged].
    destruct (List.filter (active_admin_of uid) rows) as [| a [| b l]] eqn:Hf;
      try unchanged.
    destruct (not_super_admin (Single.data (single [a]))) eqn:Hs;
      [unchanged |].
    intros _. eapply super_admin_gate; [exact Ht | exact Hu | exact Hf | exact Hs].
Qed.


(** X23: [DELETE] never removes a row of the caller's own identity,
    whichever id is asked for and whatever the caller's role. *)
Theorem DELETE_keeps_caller_row (supabase : Supabase.t)
    (request : NextRequest.t) (params_id : string)
    (rows : list AdminUser.t) (token uid : string) (resp : UserResponse.t)
    (own : AdminUser.t) :
  bearer_token (NextRequest.authorization request) = Some token ->
  Supabase.auth_getUser supabase token = Returns resp ->
  UserResponse.user resp = Some uid ->
  In own rows ->
  AdminUser.user_id own = uid ->
  exists rows',
    snd (DELETE supabase request params_id (Rows rows)) = Rows rows'
    /\ In own rows'.
Proof.
  intros Ht Hu Huid Hin Hown.
  destruct (DELETE_table_cases supabase request params_id rows)
    as [H | [H [_ (token' & resp' & uid' & target & Ht' & Hu' & Huid' & Hf
                   & Hother)]]].
  - exists rows. auto.
  - exists (List.filter (fun r => negb (has_id params_id r)) rows).
    split; [exact H |].
    assert (uid' = uid) by congruence. subst uid'.
    apply filter_In. split; [exact Hin |].
    destruct (has_id params_id own) eqn:E; [| reflexivity].
    exfalso. apply Hother.
    assert (Hmem : In own (List.filter (has_id params_id) rows))
      by (apply filter_In; auto).
    rewrite Hf in Hmem. destruct Hmem as [<- | []]. exact Hown.
Qed.

Lemma DELETE_keeps_caller_row_witness :
  exists rows',
    snd (DELETE Sample.supabase (Sample.request "token-1" None) "admin-1"
                (Rows [Sample.root; Sample.mod_admin])) = Rows rows'
    /\ In Sample.root rows'.
Proof.
  apply (@DELETE_keeps_caller_row Sample.supabase
           (Sample.request "token-1" None) "admin-1"
           [Sample.root; Sample.mod_admin] "token-1" "user-1"
           {| UserResponse.user := Some "user-1";
              UserResponse.error := None |} Sample.root).
  - reflexivity.
  - reflexivity.
  - reflexivity.
  - left. reflexivity.
  - reflexivity.
Defined.

(** X24: [DELETE] adds no row, and the rows it removes are rows with the
    id it was given: every row with another id stays. *)
Theorem DELETE_frame (supabase : Supabase.t) (request : NextRequest.t)
    (params_id : string) (rows : list AdminUser.t) :
  exists rows',
    snd (DELETE supabase request params_id (Rows rows)) = Rows rows'
    /\ (forall r, In r rows' -> In r rows)
    /\ (forall r, In r rows -> AdminUser.id r <> params_id -> In r rows').
Proof.
  destruct (DELETE_table_cases supabase request params_id rows)
    as [H | [H _]].
  - exists rows. auto.
  - exists (List.filter (fun r => negb (has_id params_id r)) rows).
    split; [exact H |]. split.
    + intros r Hin. apply filter_In in Hin. tauto.
    + intros r Hin Hid. apply filter_In. split; [exact Hin |].
      apply negb_true_iff. unfold has_id. now apply String.eqb_neq.
Qed.

(** X25: [PATCH] adds and removes no row; row by row it keeps [id],
    [user_id], [assigned_at], [assigned_by] and [created_at], and a row
    with another id than the one given is left as it is. *)
Theorem PATCH_frame (supabase : Supabase.t) (request : NextRequest.t)
    (params_id : string) (rows : list AdminUser.t) :
  exists rows',
    snd (PATCH supabase request params_id (Rows rows)) = Rows rows'
    /\ Forall2
         (fun r r' =>
            AdminUser.id r' = AdminUser.id r
            /\ AdminUser.user_id r' = AdminUser.user_id r
            /\ AdminUser.assigned_at r' = AdminUser.assigned_at r
            /\ AdminUser.assigned_by r' = AdminUser.assigned_by r
            /\ AdminUser.created_at r' = AdminUser.created_at r
            /\ (AdminUser.id r <> params_id -> r' = r))
         rows rows'.
Proof.
  destruct (PATCH_table_cases supabase request params_id rows)
    as [H | [u [H _]]].
  - exists rows. split; [exact H |].
    apply Forall2_refl. intros a. repeat split.
  - eexists. split; [exact H |].
    apply update_rows_Forall2.
    + intros r. repeat split.
    + intros r Hid. repeat split.
      intros Hne. exfalso. apply Hne. unfold has_id in Hid.
      now apply String.eqb_eq.
Qed.

(** X26: a [PATCH] that sets the role custom without an array of
    permissions never succeeds when the field is [null], or is missing and
    the row stores no list: the handler supplies no list of its own, the
    table constraint refuses the update, the answer is not 200 and the
    table is left as it was. *)
Theorem PATCH_custom_needs_explicit_list (supabase : Supabase.t)
    (request : NextRequest.t) (params_id : string)
    (rows : list AdminUser.t) (body : PatchBody.t) :
  NextRequest.json request = Returns body ->
  PatchBody.role body = Some "custom" ->
  PatchBody.custom_permissions body = Null
  \/ (PatchBody.custom_permissions body = Undefined
      /\ forall r, In r rows -> AdminUser.id r = params_id ->
                   AdminUser.custom_permissions r = None) ->
  snd (PATCH supabase request params_id (Rows rows)) = Rows rows
  /\ NextResponse.status
       (fst (PATCH supabase request params_id (Rows rows))) <> 200%Z.
Proof.
  intros Hj Hrole Hlist.
  destruct (PATCH_write_cases supabase request params_id rows)
    as [H | (u & body' & t & _ & _ & Hc & Ht & Hj' & Hr & Hcp)];
    [exact H |].
  exfalso. rewrite Hj in Hj'. injection Hj' as <-.
  rewrite Hrole in Hr. simpl in Hr.
  unfold admin_users_role_check, apply_update in Hc. simpl in Hc.
  rewrite Hr, Hcp in Hc. simpl in Hc.
  destruct Hlist as [Hnull | [Hundef Hnone]].
  - rewrite Hnull in Hc. simpl in Hc. discriminate.
  - rewrite Hundef in Hc. simpl in Hc.
    destruct (filter_singleton _ _ Ht) as [Hin Hid].
    unfold has_id in Hid. apply String.eqb_eq in Hid.
    rewrite (Hnone t Hin Hid) in Hc. discriminate.
Qed.

Lemma PATCH_custom_needs_explicit_list_witness :
  let request :=
    {| NextRequest.authorization := Some "Bearer token-1";
       NextRequest.json :=
         Returns {| PatchBody.role := Some "custom";
                    PatchBody.custom_permissions := Undefined;
                    PatchBody.status := None;
                    PatchBody.reason := None |} |} in
  snd (PATCH Sample.supabase request "admin-2"
             (Rows [Sample.root; Sample.mod_admin]))
  = Rows [Sample.root; Sample.mod_admin]
  /\ NextResponse.status
       (fst (PATCH Sample.supabase request "admin-2"
                   (Rows [Sample.root; Sample.mod_admin]))) <> 200%Z.
Proof.
  apply (@PATCH_custom_needs_explicit_list Sample.supabase
           {| NextRequest.authorization := Some "Bearer token-1";
              NextRequest.json :=
                Returns {| PatchBody.role := Some "custom";
                           PatchBody.custom_permissions := Undefined;
                           PatchBody.status := None;
                           PatchBody.reason := None |} |}
           "admin-2" [Sample.root; Sample.mod_admin]
           {| PatchBody.role := Some "custom";
              PatchBody.custom_permissions := Undefined;
              PatchBody.status := None;
              PatchBody.reason := None |}).
  - reflexivity.
  - reflexivity.
  - right. split; [reflexivity |].
    intros r [<- | [<- | []]] Hid; reflexivity.
Defined.

Lemma update_rows_keys (now : string) (u : ToUpdate.t) (id : string)
    (rows : list AdminUser.t) :
  map AdminUser.id
      (map (fun r => if has_id id r then apply_update now u r else r) rows)
  = map AdminUser.id rows
  /\ map AdminUser.user_id
         (map (fun r => if has_id id r then apply_update now u r else r) rows)
     = map AdminUser.user_id rows.
Proof.
  induction rows as [| r rest [IH1 IH2]]; simpl; [auto |].
  rewrite IH1, IH2. destruct (has_id id r); auto.
Qed.

(** X27: the handlers keep the keys: in a table where no [id] and no
    [user_id] occurs twice, none does after [PATCH], [DELETE] and
    [POST]. *)
Theorem handlers_keep_keys_unique (supabase : Supabase.t) (pg : Postgres.t)
    (request : NextRequest.t) (post : PostRequest.t) (params_id : string)
    (rows : list AdminUser.t) :
  NoDup (map AdminUser.id rows) ->
  NoDup (map AdminUser.user_id rows) ->
  forall rows',
    snd (PATCH supabase request params_id (Rows rows)) = Rows rows'
    \/ snd (DELETE supabase request params_id (Rows rows)) = Rows rows'
    \/ snd (POST supabase pg post (Rows rows)) = Rows rows' ->
    NoDup (map AdminUser.id rows') /\ NoDup (map AdminUser.user_id rows').
Proof.
  intros Hid Huid rows' [Hp | [Hd | Ho]].
  - destruct (PATCH_table_cases supabase request params_id rows)
      as [H | [u [H _]]]; rewrite H in Hp; injection Hp as <-.
    + auto.
    + destruct (update_rows_keys (Supabase.now supabase) u params_id rows)
        as [E1 E2].
      rewrite E1, E2. auto.
  - destruct (DELETE_table_cases supabase request params_id rows)
      as [H | [H _]]; rewrite H in Hd; injection Hd as <-.
    + auto.
    + split; now apply NoDup_map_filter.
  - destruct (POST_table_cases supabase pg post rows)
      as [[H _] | (token & uid & body & user_id & role & r & H & _ & _ & Hv
                   & _)];
      rewrite H in Ho; injection Ho as <-.
    + auto.
    + apply insert_violation_None in Hv.
      destruct Hv as [_ [Hnid [Hnuid _]]].
      rewrite !map_app. simpl. split; now apply NoDup_snoc.
Qed.

Lemma handlers_keep_keys_unique_witness :
  NoDup (map AdminUser.id
           [Sample.root; Sample.mod_admin;
            new_admin_row Sample.supabase SamplePost.pg "user-3" support
                          None "user-1"])
  /\ NoDup (map AdminUser.user_id
              [Sample.root; Sample.mod_admin;
               new_admin_row Sample.supabase SamplePost.pg "user-3" support
                             None "user-1"]).
Proof.
  apply (@handlers_keep_keys_unique Sample.supabase SamplePost.pg
           (Sample.request "token-1" None)
           (SamplePost.request "token-1" "user-3" "support" Undefined)
           "admin-2" [Sample.root; Sample.mod_admin]).
  - simpl. repeat (constructor; [simpl; intuition discriminate |]).
    constructor.
  - simpl. repeat (constructor; [simpl; intuition discriminate |]).
    constructor.
  - right. right. reflexivity.
Defined.


(** X28: when [POST] changes the table it appends exactly one row: it is
    active, its [id] is the fresh uuid, its [user_id] is a user who exists
    and had no row before, [assigned_by] is the caller the token resolved
    to, the response carries it, and it holds a permission list exactly
    when its role is custom. *)
Theorem POST_adds_one_active_row (supabase : Supabase.t) (pg : Postgres.t)
    (post : PostRequest.t) (rows : list AdminUser.t) :
  snd (POST supabase pg post (Rows rows)) = Rows rows
  \/ exists row token,
       snd (POST supabase pg post (Rows rows)) = Rows (rows ++ [row])
       /\ ApiBody.data
            (NextResponse.body (fst (POST supabase pg post (Rows rows))))
          = Some row
       /\ AdminUser.status row = active
       /\ AdminUser.id row = Postgres.gen_random_uuid pg
       /\ In (AdminUser.user_id row) (Postgres.users pg)
       /\ ~ In (AdminUser.user_id row) (map AdminUser.user_id rows)
       /\ bearer_token (PostRequest.authorization post) = Some token
       /\ Supabase.auth_getUser supabase token
          = Returns {| UserResponse.user := Some (AdminUser.assigned_by row);
                       UserResponse.error := None |}
       /\ (AdminUser.custom_permissions row <> None
           <-> AdminUser.role row = custom).
Proof.
  destruct (POST_table_cases supabase pg post rows)
    as [[H _] | (token & uid & body & user_id & role & r & H & _ & Hd & Hv
                 & Ht & Hu & _)];
    [left; exact H | right].
  eexists. exists token.
  split; [exact H |]. split; [exact Hd |].
  apply insert_violation_None in Hv.
  destruct Hv as [Hc [_ [Hnew [Huser _]]]].
  split; [reflexivity |]. split; [reflexivity |].
  split; [exact Huser |]. split; [exact Hnew |].
  split; [exact Ht |]. split; [exact Hu |].
  unfold admin_users_role_check in Hc. simpl in *.
  destruct r; simpl in *;
    try (split; [intros E; now contradiction E | discriminate]).
  destruct (PostBody.custom_permissions body); simpl in *;
    try discriminate.
  split; [reflexivity | discriminate].
Qed.

(** X29: a [POST] that asks for the role custom without an array of
    permissions never succeeds: the handler stores [null] for the list,
    which the table constraint refuses; the table is left as it was. *)
Theorem POST_custom_needs_explicit_list (supabase : Supabase.t)
    (pg : Postgres.t) (post : PostRequest.t) (table : Table)
    (body : PostBody.t) :
  PostRequest.json post = Returns body ->
  PostBody.role body = Some "custom" ->
  (forall ps, PostBody.custom_permissions body <> Value ps) ->
  snd (POST supabase pg post table) = table
  /\ NextResponse.status (fst (POST supabase pg post table)) <> 201%Z.
Proof.
  intros Hj Hr Hcp.
  destruct table as [rows | msg |].
  - destruct (POST_table_cases supabase pg post rows)
      as [H | (token & uid & body' & user_id & role & r & _ & _ & _ & Hv
               & _ & _ & Hj' & _ & Hr' & Hp)]; [exact H |].
    exfalso. rewrite Hj in Hj'. injection Hj' as <-.
    rewrite Hr in Hr'. simpl in Hr'. injection Hr' as <-.
    simpl in Hp. injection Hp as <-.
    apply insert_violation_None in Hv. destruct Hv as [Hc _].
    unfold admin_users_role_check in Hc. simpl in Hc.
    destruct (PostBody.custom_permissions body) as [| | ps] eqn:E;
      simpl in Hc; try discriminate.
    now apply (Hcp ps).
  - split.
    + apply (@handlers_failing_store supabase pg
               {| NextRequest.authorization := None;
                  NextRequest.json := Throws |} post ""
               (QueryError msg)). discriminate.
    + apply POST_failing_store_status. discriminate.
  - split.
    + apply (@handlers_failing_store supabase pg
               {| NextRequest.authorization := None;
                  NextRequest.json := Throws |} post "" QueryThrows).
      discriminate.
    + apply POST_failing_store_status. discriminate.
Qed.

Lemma POST_custom_needs_explicit_list_witness :
  snd (POST Sample.supabase SamplePost.pg
            (SamplePost.request "token-1" "user-3" "custom" Null)
            Sample.table) = Sample.table
  /\ NextResponse.status
       (fst (POST Sample.supabase SamplePost.pg
                  (SamplePost.request "token-1" "user-3" "custom" Null)
                  Sample.table)) <> 201%Z.
Proof.
  apply (@POST_custom_needs_explicit_list Sample.supabase SamplePost.pg
           (SamplePost.request "token-1" "user-3" "custom" Null)
           Sample.table
           {| PostBody.user_id := Some "user-3";
              PostBody.role := Some "custom";
              PostBody.custom_permissions := Null;
              PostBody.reason := None |}).
  - reflexivity.
  - reflexivity.
  - intros ps. simpl. discriminate.
Defined.

(** X30: a super admin's [POST] for a user who already has a row in
    [admin_users], whatever its status, is answered 400 "User is already an
    admin" and writes nothing. *)
Theorem POST_existing_admin_rejected (supabase : Supabase.t)
    (pg : Postgres.t) (post : PostRequest.t) (rows : list AdminUser.t)
    (token uid : string) (caller existing : AdminUser.t)
    (body : PostBody.t) (user_id role : string) (r : AdminRole) :
  bearer_token (PostRequest.authorization post) = Some token ->
  Supabase.auth_getUser supabase token
  = Returns {| UserResponse.user := Some uid; UserResponse.error := None |} ->
  List.filter (active_admin_of uid) rows = [caller] ->
  AdminUser.role caller = super_admin ->
  PostRequest.json post = Returns body ->
  truthy (PostBody.user_id body) = Some user_id ->
  truthy (PostBody.role body) = Some role ->
  parse_role role = Some r ->
  List.filter (String.eqb user_id) (Postgres.users pg) = [user_id] ->
  List.filter (has_user_id user_id) rows = [existing] ->
  POST supabase pg post (Rows rows)
  = (failure "User is already an admin" 400%Z, Rows rows).
Proof.
  intros Ht Hu Hc Hs Hj Huid Hrole Hp Huser Hex.
  run_handler. rewrite Ht, Hu. simpl. rewrite Hc. simpl. rewrite Hs. simpl.
  unfold POST_assign, bind, lift, ret, select_user, select_single.
  rewrite Hj, Huid, Hrole, Hp, Huser, Hex. reflexivity.
Qed.

Lemma POST_existing_admin_rejected_witness :
  POST Sample.supabase SamplePost.pg
       (SamplePost.request "token-1" "user-2" "support" Undefined)
       (Rows [Sample.root; Sample.mod_admin])
  = (failure "User is already an admin" 400%Z,
     Rows [Sample.root; Sample.mod_admin]).
Proof.
  apply (@POST_existing_admin_rejected Sample.supabase SamplePost.pg
           (SamplePost.request "token-1" "user-2" "support" Undefined)
           [Sample.root; Sample.mod_admin] "token-1" "user-1"
           Sample.root Sample.mod_admin
           {| PostBody.user_id := Some "user-2";
              PostBody.role := Some "support";
              PostBody.custom_permissions := Undefined;
              PostBody.reason := None |}
           "user-2" "support" support); reflexivity.
Defined.
